(** * ROTATER dashboard: a shallow embedding of the TypeScript sources

    The development follows the layout of the repository:

    - [JSNumber], [JSString], [JSArray]: the fragments of the ECMAScript
      run time the components rely on (IEEE-754 doubles, [toFixed],
      [parseFloat], [split], [join], [slice]);
    - [IntroGlobe]: the rotating globe of the intro screen;
    - [MapViz]: the click handler of the static map;
    - [GeminiService]: [getClimateInsights];
    - [Dashboard]: the view container, its refresh flow, the search box,
      the location selection and the two exports;
    - [MapDrawing], [Grounding], [ChatAssistant], [InsightsPanel]: the
      drawing of the map, the grounded lookups, the chat window and the
      risk badges;
    - [GlobeHistory], [DashboardHistory], [DashboardFlows]: what holds
      over sequences of events, the flows of the container followed
      [await] by [await].

    Strings hold the UTF-8 bytes of the JavaScript strings.

    JavaScript numbers are modelled by Rocq's primitive binary64 floats, so
    arithmetic rounds exactly as it does in the browser. *)

From Stdlib Require Import Floats ZArith List String Ascii Bool Lia.
Import ListNotations.

Set Warnings "-inexact-float".

(* ================================================================= *)
(** * ECMAScript numbers *)

Module JSNumber.

Open Scope float_scope.

(** [Number.isNaN]. *)
Definition isNaN (x : float) : bool := negb (x =? x).

(** The integer [n] as a double (exact below 2^53). *)
Definition ofNat (n : nat) : float :=
  PrimFloat.of_uint63 (Uint63.of_Z (Z.of_nat n)).

(** The [%] operator on a finite [x >= 0] and a finite [y > 0]: the exact
    remainder, by the shift-and-subtract scheme of [fmod].  Every
    subtraction removes the largest [y * 2^k] below [x] and is therefore
    exact. *)
Fixpoint scaleUp (fuel : nat) (d x : float) : float :=
  match fuel with
  | O => d
  | S fuel' => if d * 2 <=? x then scaleUp fuel' (d * 2) x else d
  end.

Fixpoint remLoop (fuel : nat) (x y : float) : float :=
  match fuel with
  | O => x
  | S fuel' =>
      if x <? y then x else remLoop fuel' (x - scaleUp 2100 y x) y
  end.

Definition rem (x y : float) : float := remLoop 2100 x y.

(** ** Decimal digits *)

Definition digitChar (d : Z) : ascii :=
  ascii_of_nat (48 + Z.to_nat d).

Fixpoint digitsAux (fuel : nat) (n : Z) (acc : string) : string :=
  match fuel with
  | O => acc
  | S fuel' =>
      let acc' := String (digitChar (n mod 10)) acc in
      if (n / 10 =? 0)%Z then acc' else digitsAux fuel' (n / 10) acc'
  end.

(** The decimal representation of [n >= 0], [0] for zero. *)
Definition digitsOf (n : Z) : string :=
  digitsAux (S (Z.to_nat (Z.log2 n))) n EmptyString.

Fixpoint zeros (n : nat) : string :=
  match n with
  | O => EmptyString
  | S n' => String "0" (zeros n')
  end.

(** ** [Number.prototype.toFixed]

    [numberToString] is [Number::toString], which [toFixed] falls back on
    for magnitudes of at least 10^21; it is left to the engine. *)

Section ToFixed.

Variable numberToString : float -> string.

(** Step 9 of the algorithm: the integer [n] for which
    [n / 10^f - x] is as close to zero as possible, the larger one when
    there are two; [x] is [m * 2^e] exactly. *)
Definition nearestScaled (f : nat) (m : positive) (e : Z) : Z :=
  let num := (Z.pos m * 10 ^ Z.of_nat f)%Z in
  if (0 <=? e)%Z then (num * 2 ^ e)%Z
  else
    let den := (2 ^ (- e))%Z in
    ((2 * num + den) / (2 * den))%Z.

(** Steps 10 and 11: the digits of [n], padded to [f + 1] characters,
    with the point before the last [f]. *)
Definition placePoint (f : nat) (n : Z) : string :=
  let m := digitsOf n in
  match f with
  | O => m
  | _ =>
      let k := String.length m in
      let m' := if (k <=? f)%nat then zeros (f + 1 - k) ++ m else m in
      let k' := String.length m' in
      substring 0 (k' - f) m' ++ "." ++ substring (k' - f) f m'
  end%string.

Definition toFixed (f : nat) (x : float) : string :=
  match Prim2SF x with
  | S754_nan => "NaN"
  | S754_infinity false => "Infinity"
  | S754_infinity true => "-Infinity"
  | S754_zero _ => placePoint f 0
  | S754_finite neg m e =>
      let s := if neg then "-" else "" in
      if (1e21 <=? abs x)%float then s ++ numberToString (abs x)
      else s ++ placePoint f (nearestScaled f m e)
  end%string.

End ToFixed.

(** ** [parseFloat] *)

Definition isDigit (c : ascii) : bool :=
  let n := nat_of_ascii c in ((48 <=? n) && (n <=? 57))%nat.

(** White space and line terminators among the first 128 code points. *)
Definition isWhiteSpace (c : ascii) : bool :=
  let n := nat_of_ascii c in
  ((n =? 9) || (n =? 10) || (n =? 11) || (n =? 12) || (n =? 13)
   || (n =? 32))%nat.

(** The other white space and line terminators, in the UTF-8 bytes a
    string holds them in: U+00A0 in two bytes; U+1680, U+2000 to U+200A,
    U+2028, U+2029, U+202F, U+205F, U+3000 and U+FEFF in three. *)
Definition isWideSpace2 (b1 b2 : ascii) : bool :=
  ((nat_of_ascii b1 =? 194) && (nat_of_ascii b2 =? 160))%nat.

Definition isWideSpace3 (b1 b2 b3 : ascii) : bool :=
  let n1 := nat_of_ascii b1 in
  let n2 := nat_of_ascii b2 in
  let n3 := nat_of_ascii b3 in
  ((n1 =? 225) && (n2 =? 154) && (n3 =? 128)
   || (n1 =? 226) && (n2 =? 128)
      && ((128 <=? n3) && (n3 <=? 138)
          || (n3 =? 168) || (n3 =? 169) || (n3 =? 175))
   || (n1 =? 226) && (n2 =? 129) && (n3 =? 159)
   || (n1 =? 227) && (n2 =? 128) && (n3 =? 128)
   || (n1 =? 239) && (n2 =? 187) && (n3 =? 191))%nat.

(** [TrimString] at the start, as [parseFloat] applies it. *)
Fixpoint trimStart (s : string) : string :=
  match s with
  | String b1 r1 =>
      if isWhiteSpace b1 then trimStart r1
      else
        match r1 with
        | String b2 r2 =>
            if isWideSpace2 b1 b2 then trimStart r2
            else
              match r2 with
              | String b3 r3 =>
                  if isWideSpace3 b1 b2 b3 then trimStart r3 else s
              | EmptyString => s
              end
        | EmptyString => s
        end
  | EmptyString => EmptyString
  end.

(** The longest run of decimal digits at the head and what follows. *)
Fixpoint spanDigits (s : string) : string * string :=
  match s with
  | String c s' =>
      if isDigit c then
        let (d, r) := spanDigits s' in (String c d, r)
      else (EmptyString, s)
  | EmptyString => (EmptyString, EmptyString)
  end.

(** [ExponentPart], when one starts here. *)
Definition exponentPart (s : string) : string :=
  match s with
  | String c s' =>
      if (Ascii.eqb c "e" || Ascii.eqb c "E")%bool then
        match s' with
        | String sg s'' =>
            if (Ascii.eqb sg "+" || Ascii.eqb sg "-")%bool then
              match fst (spanDigits s'') with
              | EmptyString => EmptyString
              | d => String c (String sg d)
              end
            else
              match fst (spanDigits s') with
              | EmptyString => EmptyString
              | d => String c d
              end
        | EmptyString => EmptyString
        end
      else EmptyString
  | EmptyString => EmptyString
  end.

(** The longest prefix that is a [StrUnsignedDecimalLiteral]. *)
Definition unsignedPrefix (s : string) : option string :=
  if String.prefix "Infinity" s then Some "Infinity"%string
  else
    let (int, r) := spanDigits s in
    match r with
    | String "." r' =>
        let (frac, r'') := spanDigits r' in
        match int, frac with
        | EmptyString, EmptyString => None
        | _, _ => Some (int ++ "." ++ frac ++ exponentPart r'')%string
        end
    | _ =>
        match int with
        | EmptyString => None
        | _ => Some (int ++ exponentPart r)%string
        end
    end.

(** The longest prefix that is a [StrDecimalLiteral]. *)
Definition decimalPrefix (s : string) : option string :=
  match s with
  | String c s' =>
      if (Ascii.eqb c "+" || Ascii.eqb c "-")%bool then
        option_map (String c) (unsignedPrefix s')
      else unsignedPrefix s
  | EmptyString => None
  end.

Fixpoint allDigits (s : string) : bool :=
  match s with
  | String c r => isDigit c && allDigits r
  | EmptyString => true
  end.

(** An optional minus sign, at least one digit, a point and exactly [f]
    digits. *)
Definition isFixedDecimal (f : nat) (s : string) : bool :=
  let body :=
    match s with
    | String c r => if Ascii.eqb c "-" then r else s
    | EmptyString => s
    end in
  let (int, r) := spanDigits body in
  match int, r with
  | String _ _, String c frac =>
      Ascii.eqb c "." && allDigits frac && (String.length frac =? f)%nat
  | _, _ => false
  end.

(** The numbers [toFixed] renders in fixed notation: finite and below
    10^21 in magnitude. *)
Definition fixedRange (x : float) : bool :=
  is_finite x && negb (1e21 <=? abs x)%float.

(** [parseFloat]; [literalValue] is the rounding of a decimal literal to
    the nearest double, left to the engine. *)
Definition parseFloat (literalValue : string -> float) (s : string)
  : float :=
  match decimalPrefix (trimStart s) with
  | Some lit => literalValue lit
  | None => nan
  end.

End JSNumber.

(* ================================================================= *)
(** * ECMAScript strings and arrays *)

Module JSString.

Open Scope string_scope.

(** [s.split(c)] for a one-character separator. *)
Fixpoint split (c : ascii) (s : string) : list string :=
  match s with
  | EmptyString => [EmptyString]
  | String a s' =>
      let r := split c s' in
      if Ascii.eqb a c then EmptyString :: r
      else
        match r with
        | h :: t => String a h :: t
        | [] => [String a EmptyString]
        end
  end.

(** [parts.join(sep)]. *)
Fixpoint join (sep : string) (parts : list string) : string :=
  match parts with
  | [] => EmptyString
  | [p] => p
  | p :: rest => p ++ sep ++ join sep rest
  end.

(** The line feed of ["\n"]. *)
Definition LF : string := String (ascii_of_nat 10) EmptyString.

End JSString.

Module JSArray.

Open Scope Z_scope.

(** Copy of the elements [k], [k + 1], ... below [final], the loop of
    [Array.prototype.slice]. *)
Fixpoint copyFrom {A : Type} (count : nat) (k : nat) (l : list A)
  : list A :=
  match count with
  | O => []
  | S count' =>
      match nth_error l k with
      | Some x => x :: copyFrom count' (S k) l
      | None => copyFrom count' (S k) l
      end
  end.

(** [l.slice(start)]: a negative [start] counts from the end. *)
Definition slice {A : Type} (start : Z) (l : list A) : list A :=
  let len := Z.of_nat (List.length l) in
  let k := if start <? 0 then Z.max (len + start) 0 else Z.min start len in
  let final := len in
  let count := Z.max (final - k) 0 in
  copyFrom (Z.to_nat count) (Z.to_nat k) l.

End JSArray.

(* ================================================================= *)
(** * The intro globe (src/unnamed/part_001) *)

Module IntroGlobe.

Import JSNumber.
Open Scope float_scope.

(** One entry of the star field, drawn from [Math.random] at mount. *)
Record Star := mkStar {
  star_x : float; star_y : float; star_size : float; star_opacity : float
}.

(** The calls [render] makes on the 2D context that put pixels on the
    canvas. *)
Inductive CanvasCall :=
| ClearRect (w h : float)
| FillStar (s : Star)
| FillGlow (w h : float)
| FillSphere
| StrokeSphere
| StrokeGraticule.

(** The variables closed over by the effect, together with what the
    browser holds for it: the queue of [requestAnimationFrame] callbacks
    (all of them are [render], so a counter is enough), whether the resize
    listener is registered, and the log of canvas calls. *)
Record Globe := mkGlobe {
  width : float;
  height : float;
  canvasWidth : float;
  canvasHeight : float;
  projScale : float;
  projTranslate : float * float;
  projRotate : float * float;
  stars : list Star;
  rotation : float;
  isRunning : bool;
  pendingFrames : nat;
  resizeListener : bool;
  drawLog : list CanvasCall
}.

Definition drawCalls (g : Globe) : nat := List.length (drawLog g).

(** [render], lines 43-91. *)
Definition render (g : Globe) : Globe :=
  if negb (isRunning g) then g
  else
    let rotation' := rotation g + 0.2 in
    {| width := width g;
       height := height g;
       canvasWidth := canvasWidth g;
       canvasHeight := canvasHeight g;
       projScale := projScale g;
       projTranslate := projTranslate g;
       projRotate := (rotation', -15);
       stars := stars g;
       rotation := rotation';
       isRunning := isRunning g;
       pendingFrames := S (pendingFrames g);
       resizeListener := resizeListener g;
       drawLog :=
         drawLog g
         ++ ClearRect (width g) (height g)
         :: map FillStar (stars g)
         ++ [FillGlow (width g) (height g);
             FillSphere; StrokeSphere; StrokeGraticule] |}.

(** [handleResize], lines 95-101, with the new window size. *)
Definition handleResize (w h : float) (g : Globe) : Globe :=
  {| width := w;
     height := h;
     canvasWidth := w;
     canvasHeight := h;
     projScale := h / 2.5;
     projTranslate := (w / 2, h / 2);
     projRotate := projRotate g;
     stars := stars g;
     rotation := rotation g;
     isRunning := isRunning g;
     pendingFrames := pendingFrames g;
     resizeListener := resizeListener g;
     drawLog := drawLog g |}.

(** The clean-up function returned by the effect, lines 106-109. *)
Definition cleanup (g : Globe) : Globe :=
  {| width := width g;
     height := height g;
     canvasWidth := canvasWidth g;
     canvasHeight := canvasHeight g;
     projScale := projScale g;
     projTranslate := projTranslate g;
     projRotate := projRotate g;
     stars := stars g;
     rotation := rotation g;
     isRunning := false;
     pendingFrames := pendingFrames g;
     resizeListener := false;
     drawLog := drawLog g |}.

(** The body of the effect, lines 18-104, for a canvas that is there and
    has a 2D context (the effect does nothing otherwise): the variables
    are initialised, [render] runs once, the listener is registered and
    [handleResize] is called.  [cw], [ch] is the size the canvas element
    had. *)
Definition mount (w h cw ch : float) (sts : list Star) : Globe :=
  let g0 :=
    {| width := w;
       height := h;
       canvasWidth := cw;
       canvasHeight := ch;
       projScale := h / 2.5;
       projTranslate := (w / 2, h / 2);
       projRotate := (0, 0);
       stars := sts;
       rotation := 0;
       isRunning := true;
       pendingFrames := 0;
       resizeListener := false;
       drawLog := [] |} in
  let g1 := render g0 in
  let g2 :=
    {| width := width g1;
       height := height g1;
       canvasWidth := canvasWidth g1;
       canvasHeight := canvasHeight g1;
       projScale := projScale g1;
       projTranslate := projTranslate g1;
       projRotate := projRotate g1;
       stars := stars g1;
       rotation := rotation g1;
       isRunning := isRunning g1;
       pendingFrames := pendingFrames g1;
       resizeListener := true;
       drawLog := drawLog g1 |} in
  handleResize w h g2.

(** What the browser can do to a mounted globe. *)
Inductive Event :=
| AnimationFrame (timestamp : float)
| WindowResize (w h : float)
| Unmount.

(** The browser takes one queued callback and calls it with the time
    stamp, which [render] does not read. *)
Definition step (e : Event) (g : Globe) : Globe :=
  match e with
  | AnimationFrame _ =>
      match pendingFrames g with
      | O => g
      | S k =>
          render
            {| width := width g;
               height := height g;
               canvasWidth := canvasWidth g;
               canvasHeight := canvasHeight g;
               projScale := projScale g;
               projTranslate := projTranslate g;
               projRotate := projRotate g;
               stars := stars g;
               rotation := rotation g;
               isRunning := isRunning g;
               pendingFrames := k;
               resizeListener := resizeListener g;
               drawLog := drawLog g |}
      end
  | WindowResize w h =>
      if resizeListener g then handleResize w h g else g
  | Unmount => cleanup g
  end.

Definition run (es : list Event) (g : Globe) : Globe :=
  fold_left (fun g e => step e g) es g.

Definition isFrame (e : Event) : bool :=
  match e with AnimationFrame _ => true | _ => false end.

Definition isUnmount (e : Event) : bool :=
  match e with Unmount => true | _ => false end.

(** Number of calls of [render] in the RUNNING state after the events
    [es]: the one of [mount] and one per animation frame. *)
Definition framesRendered (es : list Event) : nat :=
  S (List.length (filter isFrame es)).

(** [n] times [rotation += 0.2] from [rotation = 0]. *)
Definition accumulate (n : nat) : float :=
  Nat.iter n (fun r => r + 0.2) 0.

(** The angle of the specification: [(n * 0.2) mod 360]. *)
Definition specAngle (n : nat) : float := rem (ofNat n * 0.2) 360.

(** Invariant of the RUNNING state after [n] calls of [render]: exactly
    one callback is queued. *)
Definition running (n : nat) (g : Globe) : Prop :=
  isRunning g = true /\ pendingFrames g = 1%nat /\ rotation g = accumulate n.

End IntroGlobe.

(* ================================================================= *)
(** * The static map (src/unnamed/part_000) *)

Module MapViz.

(** A call of the [onLocationSelect] property. *)
Inductive Callback :=
| OnLocationSelect (lat lon : float).

(** The click listener of the country paths, lines 54-60.  [pointer] is
    the result of [d3.pointer(event)].  [invert] is [projection.invert] of
    d3-geo: it may be missing on a projection, and where present it maps a
    pixel to [[longitude, latitude]] or to nothing. *)
Definition onClick
  (invert : option (float * float -> option (float * float)))
  (pointer : float * float) : list Callback :=
  let (x, y) := pointer in
  let coords :=
    match invert with
    | Some inv => inv (x, y)
    | None => None
    end in
  match coords with
  | Some c => [OnLocationSelect (snd c) (fst c)]
  | None => []
  end.

(** Where a click lands: the listener is registered on the country paths
    (the selection of lines 40-42) and on nothing else, so a click on the
    marker circles or on the bare drawing reaches no listener. *)
Inductive ClickTarget :=
| CountryPath (index : nat)
| MarkerCircle
| Background.

Definition click
  (invert : option (float * float -> option (float * float)))
  (target : ClickTarget) (pointer : float * float) : list Callback :=
  match target with
  | CountryPath _ => onClick invert pointer
  | MarkerCircle | Background => []
  end.

(** The inverse projection is defined at a pixel. *)
Definition invertDefined
  (invert : option (float * float -> option (float * float)))
  (pointer : float * float) : bool :=
  match invert with
  | Some inv => match inv pointer with Some _ => true | None => false end
  | None => false
  end.

End MapViz.

(* ================================================================= *)
(** * The AI service (src/services/geminiService.ts) *)

Module GeminiService.

Import JSString.
Open Scope string_scope.

(** The shapes imported from [../types], as far as the sources use them. *)
Record ClimateStats := mkStats {
  date : string;
  temperature : float;
  rainfall : float;
  ndvi : float;
  anomaly : float
}.

Record Prediction := mkPrediction {
  month : string;
  riskLevel : string;
  predictedTemp : float;
  description : string
}.

Record Insights := mkInsights {
  summary : string;
  predictions : list Prediction
}.

(** The outcome of awaiting a promise. *)
Inductive Outcome (A : Type) :=
| Resolved (a : A)
| Rejected (reason : string).
Arguments Resolved {A} a.
Arguments Rejected {A} reason.

(** The argument of [ai.models.generateContent]; the response schema is
    the same in every call. *)
Record Request := mkRequest {
  model : string;
  contents : string;
  thinkingBudget : Z;
  responseMimeType : string
}.

(** What the service takes from the engine and from the network.
    [generateContent] gives the [text] of the response, which may be
    absent.  [JSON_parse] gives nothing where [JSON.parse] throws; its
    result is used at the declared type of the function's result, so a
    text that parses to [null] or to a value of another shape has no
    counterpart here ([DashboardFlows.InsightsValue] has one). *)
Record Env := mkEnv {
  numberToString : float -> string;
  JSON_stringify : list ClimateStats -> string;
  JSON_parse : string -> option Insights;
  generateContent : Request -> Outcome (option string)
}.

(** The object of the [catch] branch, lines 57-62. *)
Definition fallbackInsights : Insights :=
  {| summary := "AI Analysis unavailable. Displaying raw data only.";
     predictions :=
       [ {| month := "Next Month";
            riskLevel := "Medium";
            predictedTemp := 0;
            description := "Prediction unavailable" |} ] |}.

Section Service.

Variable env : Env.

(** Lines 15-24. *)
Definition recentStats (stats : list ClimateStats) : list ClimateStats :=
  JSArray.slice (-24) stats.

Definition prompt (stats : list ClimateStats) (lat lon : float)
  : string :=
  LF ++ "      Analyze the following climate data for location ("
  ++ numberToString env lat ++ ", " ++ numberToString env lon ++ ")."
  ++ LF ++ "      Data (Last 24 months): "
  ++ JSON_stringify env (recentStats stats)
  ++ LF ++ "      "
  ++ LF ++ "      Task:"
  ++ LF ++ "      1. Provide a concise summary of recent trends (temperature, rainfall, vegetation)."
  ++ LF ++ "      2. Predict potential risks for the next 12 months based on historical patterns."
  ++ LF ++ "      3. Identify if there are signs of drought or flood risks."
  ++ LF ++ "    ".

(** Lines 26-51. *)
Definition insightsRequest (stats : list ClimateStats) (lat lon : float)
  : Request :=
  {| model := "gemini-3-pro-preview";
     contents := prompt stats lat lon;
     thinkingBudget := 32768;
     responseMimeType := "application/json" |}.

(** [response.text || "{}"]. *)
Definition textOrEmptyObject (text : option string) : string :=
  match text with
  | Some EmptyString | None => "{}"
  | Some t => t
  end.

(** The steps inside [try] that can throw: the awaited call rejects, or
    [JSON.parse] throws on the text. *)
Definition aiStepFails (stats : list ClimateStats) (lat lon : float)
  : bool :=
  match generateContent env (insightsRequest stats lat lon) with
  | Resolved text =>
      match JSON_parse env (textOrEmptyObject text) with
      | Some _ => false
      | None => true
      end
  | Rejected _ => true
  end.

(** [getClimateInsights], lines 9-64: whatever is thrown inside [try],
    by the call or by [JSON.parse], ends in the [catch] branch. *)
Definition getClimateInsights
  (stats : list ClimateStats) (lat lon : float) : Insights :=
  match generateContent env (insightsRequest stats lat lon) with
  | Resolved text =>
      match JSON_parse env (textOrEmptyObject text) with
      | Some insights => insights
      | None => fallbackInsights
      end
  | Rejected _ => fallbackInsights
  end.

End Service.

End GeminiService.

(* ================================================================= *)
(** * The view container ([Dashboard], src/components/ChatAssistant.tsx) *)

Module Dashboard.

Import JSNumber JSString GeminiService.
Open Scope string_scope.

Record GroundingSource := mkSource { title : string; uri : string }.

Record NewsResult := mkNews {
  news_summary : string;
  sources : list GroundingSource
}.

Record MapResult := mkMapResult {
  answer : string;
  points : list GroundingSource
}.

(** What the container takes from outside: the engine, the AI service
    environment, and the modules and types that are imported.
    [getLocalNews] and [getNearbyResources] catch what they throw and give
    a result in every case.
    [Calamity] comes from [../types]; the report reads its [year], [type]
    and [intensity] through template literals only, hence the three
    renderings.  [fetchClimateData] and [fetchCalamityHistory] come from
    [../services/nasaService]. *)
Record Host := mkHost {
  env : Env;
  toUpperCase : string -> string;
  literalValue : string -> float;
  Calamity : Type;
  yearString : Calamity -> string;
  typeString : Calamity -> string;
  intensityString : Calamity -> string;
  fetchClimateData :
    float -> float -> float -> float -> Outcome (list ClimateStats);
  fetchCalamityHistory : float -> float -> list Calamity;
  getLocalNews : float -> float -> NewsResult;
  getNearbyResources : float -> float -> MapResult
}.

(** What a handler does beyond updating the state. *)
Inductive Effect :=
| Alert (message : string)
| Download (filename mimeType content : string)
| ClimateDataRequest (lat lon startYear endYear : float)
| InsightsRequest (stats : list ClimateStats) (lat lon : float)
| NewsRequest (lat lon : float)
| ResourcesRequest (lat lon : float)
| UnhandledRejection (reason : string).

Section Container.

Variable host : Host.

(** The state hooks, lines 131-147. *)
Record State := mkState {
  lat : float;
  lon : float;
  startYear : float;
  endYear : float;
  data : list ClimateStats;
  calamities : list (Calamity host);
  loading : bool;
  prediction : option Insights;
  analyzing : bool;
  news : option NewsResult;
  newsLoading : bool;
  resources : option MapResult;
  resourcesLoading : bool
}.

Definition initialState : State :=
  {| lat := 20.5937; lon := 78.9629;
     startYear := 2020; endYear := 2023;
     data := []; calamities := []; loading := false;
     prediction := None; analyzing := false;
     news := None; newsLoading := false;
     resources := None; resourcesLoading := false |}.

(** The state setters. *)
Definition setLat (v : float) (s : State) : State :=
  {| lat := v; lon := lon s; startYear := startYear s;
     endYear := endYear s; data := data s; calamities := calamities s;
     loading := loading s; prediction := prediction s;
     analyzing := analyzing s; news := news s;
     newsLoading := newsLoading s; resources := resources s;
     resourcesLoading := resourcesLoading s |}.

Definition setLon (v : float) (s : State) : State :=
  {| lat := lat s; lon := v; startYear := startYear s;
     endYear := endYear s; data := data s; calamities := calamities s;
     loading := loading s; prediction := prediction s;
     analyzing := analyzing s; news := news s;
     newsLoading := newsLoading s; resources := resources s;
     resourcesLoading := resourcesLoading s |}.

Definition setStartYear (v : float) (s : State) : State :=
  {| lat := lat s; lon := lon s; startYear := v;
     endYear := endYear s; data := data s; calamities := calamities s;
     loading := loading s; prediction := prediction s;
     analyzing := analyzing s; news := news s;
     newsLoading := newsLoading s; resources := resources s;
     resourcesLoading := resourcesLoading s |}.

Definition setEndYear (v : float) (s : State) : State :=
  {| lat := lat s; lon := lon s; startYear := startYear s;
     endYear := v; data := data s; calamities := calamities s;
     loading := loading s; prediction := prediction s;
     analyzing := analyzing s; news := news s;
     newsLoading := newsLoading s; resources := resources s;
     resourcesLoading := resourcesLoading s |}.

Definition setData (v : list ClimateStats) (s : State) : State :=
  {| lat := lat s; lon := lon s; startYear := startYear s;
     endYear := endYear s; data := v; calamities := calamities s;
     loading := loading s; prediction := prediction s;
     analyzing := analyzing s; news := news s;
     newsLoading := newsLoading s; resources := resources s;
     resourcesLoading := resourcesLoading s |}.

Definition setCalamities (v : list (Calamity host)) (s : State) : State :=
  {| lat := lat s; lon := lon s; startYear := startYear s;
     endYear := endYear s; data := data s; calamities := v;
     loading := loading s; prediction := prediction s;
     analyzing := analyzing s; news := news s;
     newsLoading := newsLoading s; resources := resources s;
     resourcesLoading := resourcesLoading s |}.

Definition setLoading (v : bool) (s : State) : State :=
  {| lat := lat s; lon := lon s; startYear := startYear s;
     endYear := endYear s; data := data s; calamities := calamities s;
     loading := v; prediction := prediction s;
     analyzing := analyzing s; news := news s;
     newsLoading := newsLoading s; resources := resources s;
     resourcesLoading := resourcesLoading s |}.

Definition setPrediction (v : option Insights) (s : State) : State :=
  {| lat := lat s; lon := lon s; startYear := startYear s;
     endYear := endYear s; data := data s; calamities := calamities s;
     loading := loading s; prediction := v;
     analyzing := analyzing s; news := news s;
     newsLoading := newsLoading s; resources := resources s;
     resourcesLoading := resourcesLoading s |}.

Definition setAnalyzing (v : bool) (s : State) : State :=
  {| lat := lat s; lon := lon s; startYear := startYear s;
     endYear := endYear s; data := data s; calamities := calamities s;
     loading := loading s; prediction := prediction s;
     analyzing := v; news := news s;
     newsLoading := newsLoading s; resources := resources s;
     resourcesLoading := resourcesLoading s |}.

Definition setNews (v : option NewsResult) (s : State) : State :=
  {| lat := lat s; lon := lon s; startYear := startYear s;
     endYear := endYear s; data := data s; calamities := calamities s;
     loading := loading s; prediction := prediction s;
     analyzing := analyzing s; news := v;
     newsLoading := newsLoading s; resources := resources s;
     resourcesLoading := resourcesLoading s |}.

Definition setNewsLoading (v : bool) (s : State) : State :=
  {| lat := lat s; lon := lon s; startYear := startYear s;
     endYear := endYear s; data := data s; calamities := calamities s;
     loading := loading s; prediction := prediction s;
     analyzing := analyzing s; news := news s;
     newsLoading := v; resources := resources s;
     resourcesLoading := resourcesLoading s |}.

Definition setResources (v : option MapResult) (s : State) : State :=
  {| lat := lat s; lon := lon s; startYear := startYear s;
     endYear := endYear s; data := data s; calamities := calamities s;
     loading := loading s; prediction := prediction s;
     analyzing := analyzing s; news := news s;
     newsLoading := newsLoading s; resources := v;
     resourcesLoading := resourcesLoading s |}.

Definition setResourcesLoading (v : bool) (s : State) : State :=
  {| lat := lat s; lon := lon s; startYear := startYear s;
     endYear := endYear s; data := data s; calamities := calamities s;
     loading := loading s; prediction := prediction s;
     analyzing := analyzing s; news := news s;
     newsLoading := newsLoading s; resources := resources s;
     resourcesLoading := v |}.

(** [loadData], lines 149-167, run from its first line to its last with
    nothing happening at its two [await]s (what may happen in between is
    in [DashboardFlows]).  The coordinates and the year range are the
    ones of the render the callback was created in.  A rejection of
    [fetchClimateData] is not caught and ends the function there. *)
Definition loadData (s : State) : State * list Effect :=
  let s1 :=
    setResources None (setNews None
      (setAnalyzing true (setLoading true s))) in
  let request :=
    ClimateDataRequest (lat s) (lon s) (startYear s) (endYear s) in
  match fetchClimateData host (lat s) (lon s) (startYear s) (endYear s)
  with
  | Rejected reason => (s1, [request; UnhandledRejection reason])
  | Resolved stats =>
      let events := fetchCalamityHistory host (lat s) (lon s) in
      let s2 :=
        setLoading false (setCalamities events (setData stats s1)) in
      let insights :=
        getClimateInsights (env host) stats (lat s) (lon s) in
      let s3 := setAnalyzing false (setPrediction (Some insights) s2) in
      (s3, [request; InsightsRequest stats (lat s) (lon s)])
  end.

(** [handleLocationSelect], lines 174-178. *)
Definition handleLocationSelect (newLat newLon : float) (s : State)
  : State * list Effect :=
  (setLon newLon (setLat newLat s), []).

(** [fetchNews] and [fetchResources], lines 180-192, each run from its
    first line to its last with nothing happening at its [await]. *)
Definition fetchNews (s : State) : State * list Effect :=
  let result := getLocalNews host (lat s) (lon s) in
  (setNewsLoading false (setNews (Some result) (setNewsLoading true s)),
   [NewsRequest (lat s) (lon s)]).

Definition fetchResources (s : State) : State * list Effect :=
  let result := getNearbyResources host (lat s) (lon s) in
  (setResourcesLoading false
     (setResources (Some result) (setResourcesLoading true s)),
   [ResourcesRequest (lat s) (lon s)]).

Definition fixed (digits : nat) (x : float) : string :=
  toFixed (numberToString (env host)) digits x.

(** The CSV text, lines 200-204. *)
Definition headers : list string :=
  ["Date"; "Temperature (C)"; "Rainfall (mm)"; "NDVI"; "Anomaly"].

Definition csvRow (row : ClimateStats) : string :=
  date row ++ "," ++ fixed 2 (temperature row)
  ++ "," ++ fixed 2 (rainfall row)
  ++ "," ++ fixed 2 (ndvi row)
  ++ "," ++ fixed 2 (anomaly row).

(** The numeric columns of a row, in the order of the header. *)
Definition numericFields (row : ClimateStats) : list float :=
  [temperature row; rainfall row; ndvi row; anomaly row].

Definition csvLines (rows : list ClimateStats) : list string :=
  join "," headers :: map csvRow rows.

Definition csvContent (rows : list ClimateStats) : string :=
  join LF (csvLines rows).

(** [handleDownloadCSV], lines 194-214. *)
Definition handleDownloadCSV (s : State) : State * list Effect :=
  match data s with
  | [] => (s, [Alert "No data available to download."])
  | _ =>
      (s, [Download
             ("climate_data_" ++ fixed 2 (lat s) ++ "_"
              ++ fixed 2 (lon s) ++ ".csv")
             "text/csv;charset=utf-8;"
             (csvContent (data s))])
  end.

(** The report text, lines 222-262.  [now] is
    [new Date().toLocaleString()] at the time of the call. *)
Definition rule : string := "==============================" ++ LF.

Definition predictionLines (p : Prediction) : string :=
  "[" ++ month p ++ "] " ++ toUpperCase host (riskLevel p) ++ LF
  ++ "   Temp: " ++ numberToString (env host) (predictedTemp p)
  ++ "°C" ++ LF
  ++ "   Note: " ++ description p ++ LF
  ++ "------------------------------" ++ LF.

Definition calamityLine (c : Calamity host) : string :=
  yearString host c ++ ": " ++ typeString host c
  ++ " (" ++ intensityString host c ++ ")" ++ LF.

Definition sourceLine (src : GroundingSource) : string :=
  "- " ++ title src ++ ": " ++ uri src ++ LF.

Definition newsSection (n : option NewsResult) : string :=
  match n with
  | None => ""
  | Some r =>
      LF ++ rule ++ "RECENT LOCAL NEWS" ++ LF ++ rule
      ++ news_summary r ++ LF
      ++ match sources r with
         | [] => ""
         | srcs => LF ++ "Sources:" ++ LF ++ concat "" (map sourceLine srcs)
         end
  end.

Definition reportContent (now : string) (p : Insights) (s : State)
  : string :=
  "ROTATER INTELLIGENCE REPORT" ++ LF
  ++ "Generated: " ++ now ++ LF
  ++ "Location: " ++ fixed 4 (lat s) ++ ", " ++ fixed 4 (lon s) ++ LF
  ++ "Date Range: " ++ numberToString (env host) (startYear s)
  ++ " - " ++ numberToString (env host) (endYear s) ++ LF ++ LF
  ++ rule ++ "AI ANALYSIS SUMMARY" ++ LF ++ rule
  ++ summary p ++ LF ++ LF
  ++ rule ++ "RISK PREDICTIONS (Next 12 Months)" ++ LF ++ rule
  ++ concat "" (map predictionLines (predictions p))
  ++ LF ++ rule ++ "RECORDED CALAMITIES" ++ LF ++ rule
  ++ match calamities s with
     | [] =>
         "No significant calamities recorded in recent history or simulated data."
         ++ LF
     | cs => concat "" (map calamityLine cs)
     end
  ++ newsSection (news s).

(** [handleExportReport], lines 216-272. *)
Definition handleExportReport (now : string) (s : State)
  : State * list Effect :=
  match prediction s with
  | None =>
      (s, [Alert "Please run analysis first to generate a report."])
  | Some p =>
      (s, [Download
             ("climate_report_" ++ fixed 2 (lat s) ++ "_"
              ++ fixed 2 (lon s) ++ ".txt")
             "text/plain;charset=utf-8;"
             (reportContent now p s)])
  end.

(** The [onKeyDown] listener of the search box, lines 295-303. *)
Definition onSearchKeyDown (key value : string) (s : State)
  : State * list Effect :=
  if String.eqb key "Enter" then
    let parts := split "," value in
    match parts with
    | [p0; p1] =>
        (setLon (parseFloat (literalValue host) p1)
           (setLat (parseFloat (literalValue host) p0) s), [])
    | _ => (s, [])
    end
  else (s, []).

(** The events the container reacts to.  The only effect hook has an
    empty dependency list, so it runs [loadData] after the first render
    and never again. *)
Inductive UIEvent :=
| Mounted
| MapSelect (newLat newLon : float)
| SearchKeyDown (key value : string)
| AnalyzeClick
| FetchNewsClick
| FindNearbyClick
| DownloadCSVClick
| ExportReportClick (now : string)
| StartYearChange (v : float)
| EndYearChange (v : float).

Definition dispatch (e : UIEvent) (s : State) : State * list Effect :=
  match e with
  | Mounted => loadData s
  | MapSelect newLat newLon => handleLocationSelect newLat newLon s
  | SearchKeyDown key value => onSearchKeyDown key value s
  | AnalyzeClick => if loading s then (s, []) else loadData s
  | FetchNewsClick => if newsLoading s then (s, []) else fetchNews s
  | FindNearbyClick =>
      if resourcesLoading s then (s, []) else fetchResources s
  | DownloadCSVClick => handleDownloadCSV s
  | ExportReportClick now => handleExportReport now s
  | StartYearChange v => (setStartYear v s, [])
  | EndYearChange v => (setEndYear v s, [])
  end.

(** The downloads among the effects. *)
Definition isDownload (e : Effect) : bool :=
  match e with Download _ _ _ => true | _ => false end.

Definition isServiceRequest (e : Effect) : bool :=
  match e with
  | ClimateDataRequest _ _ _ _ | InsightsRequest _ _ _
  | NewsRequest _ _ | ResourcesRequest _ _ => true
  | _ => false
  end.

End Container.

Arguments lat {host} s.
Arguments lon {host} s.
Arguments startYear {host} s.
Arguments endYear {host} s.
Arguments data {host} s.
Arguments calamities {host} s.
Arguments loading {host} s.
Arguments prediction {host} s.
Arguments analyzing {host} s.
Arguments news {host} s.
Arguments newsLoading {host} s.
Arguments resources {host} s.
Arguments resourcesLoading {host} s.

End Dashboard.

(* ================================================================= *)
(** * Concrete instances *)

Module Examples.

Import JSNumber JSString GeminiService Dashboard.
Open Scope string_scope.

(** The sample of the export scenario. *)
Definition sample : ClimateStats :=
  {| date := "2023-01"; temperature := 21.5; rainfall := 3.2;
     ndvi := 0.41; anomaly := -0.3 |}.

(** The same sample with a temperature that is not a number. *)
Definition nanSample : ClimateStats :=
  {| date := "2023-01"; temperature := nan; rainfall := 3.2;
     ndvi := 0.41; anomaly := -0.3 |}.

(** An AI service whose every call is rejected. *)
Definition offlineEnv : Env :=
  {| numberToString := fun _ => "?";
     JSON_stringify := fun _ => "[]";
     JSON_parse := fun _ => None;
     generateContent := fun _ => Rejected "network error" |}.

Definition offlineHost : Host :=
  {| env := offlineEnv;
     toUpperCase := fun t => t;
     literalValue := fun _ => 0%float;
     Calamity := unit;
     yearString := fun _ => "";
     typeString := fun _ => "";
     intensityString := fun _ => "";
     fetchClimateData := fun _ _ _ _ => Resolved [sample];
     fetchCalamityHistory := fun _ _ => [];
     getLocalNews := fun _ _ => {| news_summary := ""; sources := [] |};
     getNearbyResources := fun _ _ => {| answer := ""; points := [] |} |}.

(** The container after the first refresh with the AI service down. *)
Definition loadedState : State offlineHost :=
  fst (loadData offlineHost (initialState offlineHost)).

(** The equirectangular inverse with the scale and the translation of
    lines 25-27 of the map, for a drawing of the given size. *)
Definition equirectangularInvert (width height : float)
  : float * float -> option (float * float) :=
  fun '(x, y) =>
    let k := (width / 6.3)%float in
    let degrees := 57.29577951308232%float in
    Some ((x - width / 2) / k * degrees,
          (height / 2 - y) / k * degrees)%float.

End Examples.

(* ================================================================= *)
(** * Histories of the intro globe *)

Module GlobeHistory.

Import IntroGlobe.
Open Scope float_scope.

(** The size of the window after the events: the one of the last resize,
    the given one when there was none. *)
Definition lastSize (es : list Event) (size : float * float)
  : float * float :=
  fold_left
    (fun sz e => match e with WindowResize w h => (w, h) | _ => sz end)
    es size.

(** The globe with [n] callbacks left in the queue of the browser. *)
Definition withPending (n : nat) (g : Globe) : Globe :=
  {| width := width g;
     height := height g;
     canvasWidth := canvasWidth g;
     canvasHeight := canvasHeight g;
     projScale := projScale g;
     projTranslate := projTranslate g;
     projRotate := projRotate g;
     stars := stars g;
     rotation := rotation g;
     isRunning := isRunning g;
     pendingFrames := n;
     resizeListener := resizeListener g;
     drawLog := drawLog g |}.

Definition framesCalled (es : list Event) : nat :=
  List.length (filter isFrame es).

(** The canvas calls of one pass of [render], lines 46-84: [clearRect], one
    filled arc per star, the glow, the sphere filled and stroked, the
    graticule. *)
Definition callsPerFrame (g : Globe) : nat :=
  (List.length (stars g) + 5)%nat.

(** What holds of a mounted globe after [n] passes of [render]. *)
Definition steady (sts : list Star) (n : nat) (g : Globe) : Prop :=
  isRunning g = true /\ pendingFrames g = 1%nat /\ resizeListener g = true
  /\ stars g = sts
  /\ List.length (drawLog g) = (n * (List.length sts + 5))%nat
  /\ projRotate g = (rotation g, -15).

(** The drawing surface and the projection agree with the size [sz]. *)
Definition sized (sz : float * float) (g : Globe) : Prop :=
  width g = fst sz /\ height g = snd sz
  /\ canvasWidth g = fst sz /\ canvasHeight g = snd sz
  /\ projScale g = snd sz / 2.5
  /\ projTranslate g = (fst sz / 2, snd sz / 2).

End GlobeHistory.

(* ================================================================= *)
(** * The drawing of the static map (src/unnamed/part_000) *)

Module MapDrawing.

Import JSNumber GeminiService.
Open Scope float_scope.

(** [ToBoolean] of a number: false for zero, minus zero and NaN. *)
Definition truthy (x : float) : bool := negb (x =? 0) && negb (isNaN x).

(** What the effect appends to the group of the drawing. *)
Inductive SvgElement :=
| CountryPathElement (index : nat)
| PulseCircle (cx cy : float)
| MarkerDot (cx cy : float).

(** The selected point, lines 63-85.  [project] is the projection of
    d3-geo, called on [[lon, lat]]; it gives a pixel or nothing. *)
Definition drawMarker
  (project : float * float -> option (float * float)) (lat lon : float)
  : list SvgElement :=
  if truthy lat && truthy lon then
    match project (lon, lat) with
    | Some coords =>
        [PulseCircle (fst coords) (snd coords);
         MarkerDot (fst coords) (snd coords)]
    | None => []
    end
  else [].

(** The body of the effect, lines 16-86, after [svg.selectAll("*").remove()]:
    nothing is appended before the geometry has arrived; then one path per
    country feature and, last, the marker.  [fetched] is the outcome of
    the chain [fetch ... json ... feature], which rejects when the request
    fails or the topology is malformed; [svgPresent] says whether
    [svgRef.current] is set. *)
Definition drawMap
  (svgPresent : bool) (fetched : Outcome nat)
  (project : float * float -> option (float * float)) (lat lon : float)
  : list SvgElement :=
  if svgPresent then
    match fetched with
    | Resolved features =>
        (map CountryPathElement (seq 0 features)
         ++ drawMarker project lat lon)%list
    | Rejected _ => []
    end
  else [].

Definition isPath (e : SvgElement) : bool :=
  match e with CountryPathElement _ => true | _ => false end.

End MapDrawing.

(* ================================================================= *)
(** * The grounded lookups (src/services/geminiService.ts) *)

Module Grounding.

Import JSString GeminiService Dashboard.
Open Scope string_scope.

(** A [groundingChunk] of a response, as far as the service reads it. *)
Record Chunk := mkChunk {
  web : option GroundingSource;
  maps : option GroundingSource
}.

(** A response: its [text], and the list reached by
    [candidates?.[0]?.groundingMetadata?.groundingChunks], absent when a
    link of the chain is. *)
Record Response := mkResponse {
  text : option string;
  groundingChunks : option (list Chunk)
}.

Inductive Tool :=
| GoogleSearch
| GoogleMaps (latitude longitude : float).

Record LookupRequest := mkLookup {
  lookupModel : string;
  lookupContents : string;
  tool : Tool
}.

Section Lookups.

Variable numberToString : float -> string.
Variable generateContent : LookupRequest -> Outcome Response.

(** [text || fallback]. *)
Definition textOr (fallback : string) (t : option string) : string :=
  match t with
  | Some EmptyString | None => fallback
  | Some v => v
  end.

(** The [forEach] of lines 78-82, a [push] per chunk with a [web] part. *)
Definition collectSources (chunks : list Chunk) : list GroundingSource :=
  fold_left
    (fun acc chunk =>
       match web chunk with
       | Some w => (acc ++ [ {| title := title w; uri := uri w |} ])%list
       | None => acc
       end)
    chunks [].

(** The [forEach] of lines 114-121. *)
Definition collectPoints (chunks : list Chunk) : list GroundingSource :=
  fold_left
    (fun acc chunk =>
       match maps chunk with
       | Some m => (acc ++ [ {| title := title m; uri := uri m |} ])%list
       | None =>
           match web chunk with
           | Some w => (acc ++ [ {| title := title w; uri := uri w |} ])%list
           | None => acc
           end
       end)
    chunks [].

Definition chunksOf (r : Response) : list Chunk :=
  match groundingChunks r with
  | Some chunks => chunks
  | None => []
  end.

Definition newsRequest (lat lon : float) : LookupRequest :=
  {| lookupModel := "gemini-3-flash-preview";
     lookupContents :=
       "Find recent (last 6 months) climate, weather, or environmental news events near coordinates "
       ++ numberToString lat ++ ", " ++ numberToString lon
       ++ ". Summarize the key situations.";
     tool := GoogleSearch |}.

(** [getLocalNews], lines 67-92. *)
Definition getLocalNews (lat lon : float) : NewsResult :=
  match generateContent (newsRequest lat lon) with
  | Resolved response =>
      {| news_summary := textOr "No recent news found." (text response);
         sources := collectSources (chunksOf response) |}
  | Rejected _ =>
      {| news_summary := "Could not fetch news."; sources := [] |}
  end.

Definition resourcesRequest (lat lon : float) : LookupRequest :=
  {| lookupModel := "gemini-2.5-flash";
     lookupContents :=
       "List nearby emergency shelters, hospitals, and disaster relief centers.";
     tool := GoogleMaps lat lon |}.

(** [getNearbyResources], lines 95-131. *)
Definition getNearbyResources (lat lon : float) : MapResult :=
  match generateContent (resourcesRequest lat lon) with
  | Resolved response =>
      {| answer := textOr "No resources found." (text response);
         points := collectPoints (chunksOf response) |}
  | Rejected _ =>
      {| answer := "Could not fetch resources."; points := [] |}
  end.

End Lookups.

(** The source a chunk gives to the news list, and to the list of points. *)
Definition sourceOf (c : Chunk) : list GroundingSource :=
  match web c with Some w => [w] | None => [] end.

Definition pointOf (c : Chunk) : list GroundingSource :=
  match maps c with
  | Some m => [m]
  | None => match web c with Some w => [w] | None => [] end
  end.

End Grounding.

(* ================================================================= *)
(** * The chat assistant (src/components/ChatAssistant.tsx) *)

Module ChatAssistant.

Import GeminiService.
Open Scope string_scope.

Inductive Role := RoleUser | RoleModel.

Record ChatMessage := mkMessage { role : Role; text : string }.

(** The configuration [createChatSession] passes to [ai.chats.create],
    geminiService.ts lines 134-141. *)
Record Chat := mkChat { chatModel : string; systemInstruction : string }.

Definition createChatSession : Chat :=
  {| chatModel := "gemini-3-pro-preview";
     systemInstruction :=
       "You are ROTATER's advanced climate AI assistant. Answer questions about weather patterns, climate science, and interpret the data on the dashboard for the user." |}.

(** The state hooks and the session reference, lines 8-15, with the number
    of [sendMessage] promises that have not settled yet. *)
Record State := mkState {
  isOpen : bool;
  messages : list ChatMessage;
  input : string;
  isTyping : bool;
  chatSession : option Chat;
  inFlight : nat
}.

Definition greeting : ChatMessage :=
  {| role := RoleModel;
     text :=
       "Hello! I am your Climate AI. Ask me about weather patterns or analysis." |}.

Definition initialState : State :=
  {| isOpen := false; messages := [greeting]; input := "";
     isTyping := false; chatSession := None; inFlight := 0 |}.

Inductive Effect :=
| CreateChatSession
| SendMessage (message : string)
| ScrollToBottom.

Section Component.

(** [String.prototype.trim], left to the engine. *)
Variable trim : string -> string.

(** The effect hook, lines 17-22; it runs after a render in which [isOpen]
    or [messages] has changed. *)
Definition effect (s : State) : State * list Effect :=
  match isOpen s, chatSession s with
  | true, None =>
      ({| isOpen := isOpen s; messages := messages s; input := input s;
          isTyping := isTyping s; chatSession := Some createChatSession;
          inFlight := inFlight s |},
       [CreateChatSession; ScrollToBottom])
  | _, _ => (s, [ScrollToBottom])
  end.

(** [handleSend] up to its [await], lines 28-37. *)
Definition handleSend (s : State) : State * list Effect :=
  match trim (input s), chatSession s with
  | EmptyString, _ | _, None => (s, [])
  | _, Some _ =>
      let userMsg := input s in
      let (s', fx) :=
        effect
          {| isOpen := isOpen s;
             messages :=
               (messages s ++ [ {| role := RoleUser; text := userMsg |} ])%list;
             input := "";
             isTyping := true;
             chatSession := chatSession s;
             inFlight := S (inFlight s) |} in
      (s', SendMessage userMsg :: fx)
  end.

(** The text shown for a settled [sendMessage], lines 38-41. *)
Definition replyText (outcome : Outcome (option string)) : string :=
  match outcome with
  | Resolved (Some EmptyString) | Resolved None => "I couldn't process that."
  | Resolved (Some t) => t
  | Rejected _ => "Sorry, I encountered an error."
  end.

(** [handleSend] after its [await], lines 38-44. *)
Definition settle (outcome : Outcome (option string)) (s : State)
  : State * list Effect :=
  effect
    {| isOpen := isOpen s;
       messages :=
         (messages s
          ++ [ {| role := RoleModel; text := replyText outcome |} ])%list;
       input := input s;
       isTyping := false;
       chatSession := chatSession s;
       inFlight := pred (inFlight s) |}.

Definition setIsOpen (v : bool) (s : State) : State :=
  {| isOpen := v; messages := messages s; input := input s;
     isTyping := isTyping s; chatSession := chatSession s;
     inFlight := inFlight s |}.

Definition setInput (v : string) (s : State) : State :=
  {| isOpen := isOpen s; messages := messages s; input := v;
     isTyping := isTyping s; chatSession := chatSession s;
     inFlight := inFlight s |}.

(** What can happen to the mounted component.  The floating button is
    rendered while the window is closed; the window, with its close
    button, its input and its send button, while it is open; the send
    button is disabled while [isTyping]; a reply arrives for a promise
    that is in flight. *)
Inductive Event :=
| OpenClick
| CloseClick
| InputChange (value : string)
| InputKeyDown (key : string)
| SendClick
| Reply (outcome : Outcome (option string)).

Definition dispatch (e : Event) (s : State) : State * list Effect :=
  match e with
  | OpenClick => if isOpen s then (s, []) else effect (setIsOpen true s)
  | CloseClick => if isOpen s then effect (setIsOpen false s) else (s, [])
  | InputChange v => if isOpen s then (setInput v s, []) else (s, [])
  | InputKeyDown key =>
      if isOpen s && String.eqb key "Enter" then handleSend s else (s, [])
  | SendClick =>
      if isOpen s && negb (isTyping s) then handleSend s else (s, [])
  | Reply outcome =>
      match inFlight s with
      | O => (s, [])
      | S _ => settle outcome s
      end
  end.

Fixpoint run (es : list Event) (st : State * list Effect)
  : State * list Effect :=
  match es with
  | [] => st
  | e :: es' =>
      let (s', fx) := dispatch e (fst st) in
      run es' (s', (snd st ++ fx)%list)
  end.

(** The component after its first render and the events [es]; at mount
    the effect only scrolls, the window being closed. *)
Definition history (es : list Event) : State * list Effect :=
  run es (effect initialState).

End Component.

Definition isCreate (e : Effect) : bool :=
  match e with CreateChatSession => true | _ => false end.

(** The texts passed to [sendMessage], in order. *)
Definition sentTexts (fx : list Effect) : list string :=
  flat_map (fun e => match e with SendMessage m => [m] | _ => [] end) fx.

Definition isUser (m : ChatMessage) : bool :=
  match role m with RoleUser => true | RoleModel => false end.

Definition isModel (m : ChatMessage) : bool :=
  match role m with RoleModel => true | RoleUser => false end.

Definition isReply (e : Event) : bool :=
  match e with Reply _ => true | _ => false end.


(** What holds of the component and of the effects so far, also between
    a state update and the effect hook that follows it. *)
Definition accounted (trim : string -> string) (st : State * list Effect)
  : Prop :=
  let (s, fx) := st in
  (forall c, chatSession s = Some c -> c = createChatSession)
  /\ List.length (filter isCreate fx)
     = match chatSession s with Some _ => 1%nat | None => 0%nat end
  /\ map text (filter isUser (messages s)) = sentTexts fx
  /\ Forall (fun m => trim m <> EmptyString) (sentTexts fx)
  /\ (List.length (filter isModel (messages s)) + inFlight s
      = 1 + List.length (sentTexts fx))%nat
  /\ (isTyping s = true -> (0 < inFlight s)%nat).

(** What holds once the effect hook has run. *)
Definition consistent (trim : string -> string) (st : State * list Effect)
  : Prop :=
  accounted trim st
  /\ (isOpen (fst st) = true -> chatSession (fst st) <> None).

End ChatAssistant.

(* ================================================================= *)
(** * Plain text *)

Module JSText.

Import JSNumber.
Open Scope string_scope.

(** The character does not occur in the string. *)
Fixpoint noChar (c : ascii) (s : string) : bool :=
  match s with
  | String a r => negb (Ascii.eqb a c) && noChar c r
  | EmptyString => true
  end.

Fixpoint allWhiteSpace (s : string) : bool :=
  match s with
  | String a r => isWhiteSpace a && allWhiteSpace r
  | EmptyString => true
  end.

(** An optional minus sign, digits, and optionally a point followed by
    digits: the way a coordinate is usually typed. *)
Definition plainDecimal (s : string) : bool :=
  let body :=
    match s with
    | String c r => if Ascii.eqb c "-" then r else s
    | EmptyString => s
    end in
  let (int, r) := spanDigits body in
  match int, r with
  | EmptyString, _ => false
  | _, EmptyString => true
  | _, String c frac => Ascii.eqb c "." && allDigits frac
  end.

(** The characters of a number in fixed notation. *)
Fixpoint fixedChars (s : string) : bool :=
  match s with
  | String a r =>
      (isDigit a || Ascii.eqb a "-" || Ascii.eqb a ".") && fixedChars r
  | EmptyString => true
  end.

End JSText.

(* ================================================================= *)
(** * Histories of the view container *)

Module DashboardHistory.

Import JSNumber JSString JSText GeminiService Dashboard.
Open Scope string_scope.

Section Runs.

Variable host : Host.

(** A row the CSV text can be read back from: no comma and no line feed
    in the date, every number in the range of fixed notation. *)
Definition cleanRow (row : ClimateStats) : bool :=
  noChar "," (date row) && noChar (ascii_of_nat 10) (date row)
  && forallb fixedRange (numericFields row).

(** The cells of the CSV text: the lines, each split at the commas. *)
Definition csvCells (content : string) : list (list string) :=
  map (split ",") (split (ascii_of_nat 10) content).

(** The cells a row is written from. *)
Definition rowCells (row : ClimateStats) : list string :=
  date row :: map (fixed host 2) (numericFields row).

(** The first three lines of the report for a point. *)
Definition reportHead (now : string) (pointLat pointLon : float) : string :=
  "ROTATER INTELLIGENCE REPORT" ++ LF
  ++ "Generated: " ++ now ++ LF
  ++ "Location: " ++ fixed host 4 pointLat ++ ", "
  ++ fixed host 4 pointLon ++ LF.

End Runs.

(** The requests of a refresh. *)
Definition isRefreshRequest (e : Effect) : bool :=
  match e with
  | ClimateDataRequest _ _ _ _ | InsightsRequest _ _ _ => true
  | _ => false
  end.

End DashboardHistory.

(* ================================================================= *)
(** * The flows of the view container, await by await *)

Module DashboardFlows.

Import JSNumber JSString GeminiService Dashboard.
Open Scope string_scope.

(** What the promise of [getClimateInsights] resolves to, by what the
    container can do with it: a falsy value such as [null]; an object of
    the declared type; or a truthy value without a [predictions] array,
    such as the object parsed from the default text of line 54, on which
    the render of the prediction panel (lines 459-471) throws.  A truthy
    value that has a [predictions] array and is otherwise not of the
    declared type is not covered. *)
Inductive InsightsValue :=
| Falsy
| Shaped (insights : Insights)
| Unshaped.

Section Flows.

Variable host : Host.

(** The container with the promises it is waiting for: the coordinates
    captured by each call of [loadData] that awaits its data, the number
    of calls that await their insights, the news and the resources
    lookups in flight, and whether a render has thrown, which unmounts
    the container. *)
Record Flows := mkFlows {
  view : State host;
  pendingFetch : list (float * float);
  pendingInsights : nat;
  pendingNews : nat;
  pendingResources : nat;
  crashed : bool
}.

Definition withView (v : State host) (a : Flows) : Flows :=
  {| view := v; pendingFetch := pendingFetch a;
     pendingInsights := pendingInsights a; pendingNews := pendingNews a;
     pendingResources := pendingResources a; crashed := crashed a |}.

(** [loadData] up to its first [await], lines 150-156. *)
Definition startLoad (a : Flows) : Flows * list Effect :=
  let s := view a in
  ({| view :=
        setResources host None
          (setNews host None
             (setAnalyzing host true (setLoading host true s)));
      pendingFetch := (pendingFetch a ++ [(lat s, lon s)])%list;
      pendingInsights := pendingInsights a; pendingNews := pendingNews a;
      pendingResources := pendingResources a; crashed := crashed a |},
   [ClimateDataRequest (lat s) (lon s) (startYear s) (endYear s)]).

(** [loadData] from its first [await] to its second, lines 156-164: a
    rejection is not caught and ends the call. *)
Definition resumeLoad (outcome : Outcome (list ClimateStats)) (a : Flows)
  : Flows * list Effect :=
  match pendingFetch a with
  | [] => (a, [])
  | (pointLat, pointLon) :: rest =>
      match outcome with
      | Rejected reason =>
          ({| view := view a; pendingFetch := rest;
              pendingInsights := pendingInsights a;
              pendingNews := pendingNews a;
              pendingResources := pendingResources a;
              crashed := crashed a |},
           [UnhandledRejection reason])
      | Resolved stats =>
          ({| view :=
                setLoading host false
                  (setCalamities host
                     (fetchCalamityHistory host pointLat pointLon)
                     (setData host stats (view a)));
              pendingFetch := rest;
              pendingInsights := S (pendingInsights a);
              pendingNews := pendingNews a;
              pendingResources := pendingResources a;
              crashed := crashed a |},
           [InsightsRequest stats pointLat pointLon])
      end
  end.

(** [loadData] after its second [await], lines 164-166, and the render
    that follows. *)
Definition finishLoad (value : InsightsValue) (a : Flows)
  : Flows * list Effect :=
  match pendingInsights a with
  | O => (a, [])
  | S n =>
      match value with
      | Unshaped =>
          ({| view := view a; pendingFetch := pendingFetch a;
              pendingInsights := n; pendingNews := pendingNews a;
              pendingResources := pendingResources a; crashed := true |},
           [])
      | _ =>
          ({| view :=
                setAnalyzing host false
                  (setPrediction host
                     (match value with Shaped i => Some i | _ => None end)
                     (view a));
              pendingFetch := pendingFetch a;
              pendingInsights := n; pendingNews := pendingNews a;
              pendingResources := pendingResources a;
              crashed := crashed a |},
           [])
      end
  end.

(** [fetchNews] before and after its [await], lines 180-185. *)
Definition startNews (a : Flows) : Flows * list Effect :=
  let s := view a in
  ({| view := setNewsLoading host true s; pendingFetch := pendingFetch a;
      pendingInsights := pendingInsights a;
      pendingNews := S (pendingNews a);
      pendingResources := pendingResources a; crashed := crashed a |},
   [NewsRequest (lat s) (lon s)]).

Definition finishNews (result : NewsResult) (a : Flows)
  : Flows * list Effect :=
  match pendingNews a with
  | O => (a, [])
  | S n =>
      ({| view :=
            setNewsLoading host false
              (setNews host (Some result) (view a));
          pendingFetch := pendingFetch a;
          pendingInsights := pendingInsights a; pendingNews := n;
          pendingResources := pendingResources a; crashed := crashed a |},
       [])
  end.

(** [fetchResources] before and after its [await], lines 187-192. *)
Definition startResources (a : Flows) : Flows * list Effect :=
  let s := view a in
  ({| view := setResourcesLoading host true s;
      pendingFetch := pendingFetch a;
      pendingInsights := pendingInsights a; pendingNews := pendingNews a;
      pendingResources := S (pendingResources a); crashed := crashed a |},
   [ResourcesRequest (lat s) (lon s)]).

Definition finishResources (result : MapResult) (a : Flows)
  : Flows * list Effect :=
  match pendingResources a with
  | O => (a, [])
  | S n =>
      ({| view :=
            setResourcesLoading host false
              (setResources host (Some result) (view a));
          pendingFetch := pendingFetch a;
          pendingInsights := pendingInsights a;
          pendingNews := pendingNews a; pendingResources := n;
          crashed := crashed a |},
       [])
  end.

(** A handler that runs to its end at once. *)
Definition atOnce (r : State host * list Effect) (a : Flows)
  : Flows * list Effect :=
  (withView (fst r) a, snd r).

(** What happens to the mounted container: the user acts, or a promise
    settles.  The three buttons that start a flow are disabled while
    their flag is set (lines 351, 378, 409). *)
Inductive Event :=
| PointSelected (newLat newLon : float)
| SearchKey (key value : string)
| AnalyzePressed
| NewsPressed
| NearbyPressed
| CsvPressed
| ReportPressed (now : string)
| StartYearInput (v : float)
| EndYearInput (v : float)
| ClimateDataReply (outcome : Outcome (list ClimateStats))
| InsightsReply (value : InsightsValue)
| NewsReply (result : NewsResult)
| ResourcesReply (result : MapResult).

Definition dispatch (e : Event) (a : Flows) : Flows * list Effect :=
  if crashed a then (a, [])
  else
    let s := view a in
    match e with
    | PointSelected newLat newLon =>
        atOnce (handleLocationSelect host newLat newLon s) a
    | SearchKey key value => atOnce (onSearchKeyDown host key value s) a
    | AnalyzePressed => if loading s then (a, []) else startLoad a
    | NewsPressed => if newsLoading s then (a, []) else startNews a
    | NearbyPressed =>
        if resourcesLoading s then (a, []) else startResources a
    | CsvPressed => atOnce (handleDownloadCSV host s) a
    | ReportPressed now => atOnce (handleExportReport host now s) a
    | StartYearInput v => atOnce (setStartYear host v s, []) a
    | EndYearInput v => atOnce (setEndYear host v s, []) a
    | ClimateDataReply outcome => resumeLoad outcome a
    | InsightsReply value => finishLoad value a
    | NewsReply result => finishNews result a
    | ResourcesReply result => finishResources result a
    end.

Fixpoint run (es : list Event) (st : Flows * list Effect)
  : Flows * list Effect :=
  match es with
  | [] => st
  | e :: es' =>
      let (a', fx) := dispatch e (fst st) in
      run es' (a', (snd st ++ fx)%list)
  end.

(** The container after its first render: the effect hook of lines
    169-172 has called [loadData]. *)
Definition mounted : Flows * list Effect :=
  startLoad
    {| view := initialState host; pendingFetch := [];
       pendingInsights := 0; pendingNews := 0; pendingResources := 0;
       crashed := false |}.

Definition history (es : list Event) : Flows * list Effect :=
  run es mounted.

(** At most one call of [loadData] awaits its data, and [loading] is set
    while it does; a lookup is in flight exactly while its flag is
    set. *)
Definition orderly (a : Flows) : Prop :=
  (List.length (pendingFetch a) <= 1)%nat
  /\ (pendingFetch a <> [] -> loading (view a) = true)
  /\ pendingNews a = (if newsLoading (view a) then 1 else 0)%nat
  /\ pendingResources a = (if resourcesLoading (view a) then 1 else 0)%nat.

(** The container after a data request has been rejected. *)
Definition stuck (a : Flows) : Prop :=
  loading (view a) = true /\ (crashed a = true \/ pendingFetch a = []).

End Flows.

Arguments view {host} _.
Arguments pendingFetch {host} _.
Arguments pendingInsights {host} _.
Arguments pendingNews {host} _.
Arguments pendingResources {host} _.
Arguments crashed {host} _.

(** The container on the host of the examples once the first data have
    arrived. *)
Definition dataArrived : Flows Examples.offlineHost :=
  fst (run Examples.offlineHost
         [ClimateDataReply (Resolved [Examples.sample])]
         (mounted Examples.offlineHost)).

End DashboardFlows.

(* ================================================================= *)
(** * The prediction panel ([Dashboard], lines 452-493) *)

Module InsightsPanel.

Import GeminiService.
Open Scope string_scope.

(** The colours of the badge of a prediction, lines 477-481. *)
Definition riskBadgeClass (level : string) : string :=
  if String.eqb level "High" then "bg-red-500/20 text-red-400"
  else if String.eqb level "Medium" then "bg-yellow-500/20 text-yellow-400"
  else "bg-green-500/20 text-green-400".

(** The levels the response schema of [getClimateInsights] allows,
    geminiService.ts line 42. *)
Definition schemaLevels : list string := ["Low"; "Medium"; "High"; "Critical"].

End InsightsPanel.

(* ================================================================= *)
(** * Properties of the intro globe *)

Section GlobeProperties.

Import JSNumber IntroGlobe.
Open Scope float_scope.

Lemma render_stopped (g : Globe) :
  isRunning g = false -> render g = g.
Proof. intros H. unfold render. now rewrite H. Qed.

Lemma step_stopped (e : Event) (g : Globe) :
  isRunning g = false -> resizeListener g = false ->
  isRunning (step e g) = false /\ resizeListener (step e g) = false
  /\ drawLog (step e g) = drawLog g /\ rotation (step e g) = rotation g
  /\ (pendingFrames (step e g) <= pendingFrames g)%nat.
Proof.
  intros Hr Hl. destruct e as [t | w h | ]; simpl.
  - destruct (pendingFrames g) as [| k] eqn:Hp; [rewrite Hp; easy |].
    rewrite render_stopped by exact Hr. simpl. repeat split; auto.
  - rewrite Hl. easy.
  - easy.
Qed.

Lemma run_stopped (es : list Event) : forall g,
  isRunning g = false -> resizeListener g = false ->
  drawLog (run es g) = drawLog g /\ rotation (run es g) = rotation g
  /\ (pendingFrames (run es g) <= pendingFrames g)%nat.
Proof.
  induction es as [| e es IH]; intros g Hr Hl; simpl; [easy |].
  destruct (step_stopped e g Hr Hl) as (Hr' & Hl' & Hd & Hrot & Hp).
  destruct (IH (step e g) Hr' Hl') as (IHd & IHrot & IHp).
  repeat split; [congruence | congruence | lia].
Qed.

Lemma mount_running w h cw ch sts : running 1 (mount w h cw ch sts).
Proof. repeat split. Qed.

Lemma step_running (e : Event) (n : nat) (g : Globe) :
  running n g -> isUnmount e = false ->
  running (if isFrame e then S n else n) (step e g).
Proof.
  intros (Hr & Hp & Hrot) Hu. destruct e as [t | w h | ]; simpl in *.
  - rewrite Hp. unfold render. simpl. rewrite Hr. simpl.
    repeat split. now rewrite Hrot.
  - destruct (resizeListener g); repeat split; assumption.
  - discriminate.
Qed.

Lemma run_running (es : list Event) : forall n g,
  running n g -> forallb (fun e => negb (isUnmount e)) es = true ->
  running (n + List.length (filter isFrame es)) (run es g).
Proof.
  induction es as [| e es IH]; intros n g Hg Hes; simpl in *.
  - now rewrite Nat.add_0_r.
  - apply andb_true_iff in Hes as [He Hes].
    apply negb_true_iff in He.
    pose proof (step_running e n g Hg He) as Hstep.
    specialize (IH _ _ Hstep Hes).
    destruct (isFrame e); simpl; [| exact IH].
    now rewrite Nat.add_succ_r.
Qed.

(** C3 (as amended).  While the globe is mounted, [rotation] is the
    double obtained by adding 0.2 once per call of [render], starting from
    0: it depends on the number of frames only, neither on the time stamps
    the frames are called with nor on resizes in between, and it is not
    reduced modulo 360. *)
Theorem rotation_counts_frames (w h cw ch : float) (sts : list Star)
    (es : list Event) :
  forallb (fun e => negb (isUnmount e)) es = true ->
  rotation (run es (mount w h cw ch sts)) = accumulate (framesRendered es).
Proof.
  intros Hes.
  destruct (run_running es 1 _ (mount_running w h cw ch sts) Hes)
    as (_ & _ & Hrot).
  exact Hrot.
Qed.

(** Three frames, with a resize in between. *)
Lemma rotation_counts_frames_witness :
  rotation
    (run [AnimationFrame 16.7; WindowResize 1024 768; AnimationFrame 950]
       (mount 800 600 300 150 []))
  = accumulate 3.
Proof.
  apply (rotation_counts_frames 800 600 300 150 []
           [AnimationFrame 16.7; WindowResize 1024 768; AnimationFrame 950]).
  reflexivity.
Defined.

(** C3 (as stated) fails: after 2000 frames the angle is
    399.99999999998585, which is neither [(2000 * 0.2) mod 360 = 40] nor
    [2000 * 0.2 = 400]. *)
Lemma rotation_not_reduced_mod_360 :
  let g := run (repeat (AnimationFrame 0) 1999) (mount 800 600 300 150 []) in
  framesRendered (repeat (AnimationFrame 0) 1999) = 2000%nat
  /\ isRunning g = true
  /\ rotation g <> specAngle 2000
  /\ rotation g <> ofNat 2000 * 0.2.
Proof.
  cbv zeta. split; [| split; [| split]].
  - vm_compute. reflexivity.
  - vm_compute. reflexivity.
  - intros H. apply (f_equal (fun z => z <? 360)) in H.
    vm_compute in H. discriminate H.
  - intros H. apply (f_equal (fun z => z <? 400)) in H.
    vm_compute in H. discriminate H.
Qed.

(** C4.  Once the clean-up function has run, nothing that happens later
    (queued frames being called, resizes, further clean-ups) adds a call
    to the canvas, moves the rotation or queues a frame: the flag is tested
    at the top of [render], before anything is drawn. *)
Theorem no_draw_after_unmount (g : Globe) (before after : list Event) :
  let stopped := run (before ++ [Unmount]) g in
  isRunning stopped = false
  /\ drawCalls (run (before ++ Unmount :: after) g) = drawCalls stopped
  /\ drawLog (run (before ++ Unmount :: after) g) = drawLog (run before g)
  /\ rotation (run (before ++ Unmount :: after) g) = rotation (run before g)
  /\ (pendingFrames (run (before ++ Unmount :: after) g)
      <= pendingFrames (run before g))%nat.
Proof.
  cbv zeta. unfold run, drawCalls.
  rewrite !fold_left_app. simpl.
  set (g' := fold_left (fun g e => step e g) before g).
  destruct (run_stopped after (cleanup g') eq_refl eq_refl) as (Hd & Hr & Hp).
  unfold run in Hd, Hr, Hp. rewrite Hd, Hr. simpl in *. auto.
Qed.

End GlobeProperties.

(* ================================================================= *)
(** * Properties of the run-time fragments *)

Section NumberProperties.

Import JSNumber.
Open Scope nat_scope.
Open Scope string_scope.

Local Arguments digitChar : simpl never.
Local Arguments isDigit : simpl never.
Local Arguments Z.div : simpl never.
Local Arguments Z.modulo : simpl never.

Lemma allDigits_app (a b : string) :
  allDigits (a ++ b) = allDigits a && allDigits b.
Proof.
  induction a as [| c a IH]; simpl; [reflexivity |].
  now rewrite IH, andb_assoc.
Qed.

Lemma allDigits_zeros (n : nat) : allDigits (zeros n) = true.
Proof. induction n; simpl; auto. Qed.

Lemma digitChar_isDigit (d : Z) :
  (0 <= d < 10)%Z -> isDigit (digitChar d) = true.
Proof.
  intros H.
  assert (Hd : In d [0; 1; 2; 3; 4; 5; 6; 7; 8; 9]%Z) by (simpl; lia).
  simpl in Hd.
  repeat (destruct Hd as [<- | Hd]; [reflexivity |]).
  contradiction.
Qed.

Lemma digitsAux_allDigits (fuel : nat) : forall n acc,
  allDigits acc = true -> allDigits (digitsAux fuel n acc) = true.
Proof.
  induction fuel as [| fuel IH]; intros n acc Hacc;
    cbn [digitsAux]; [exact Hacc |].
  assert (Hstep : allDigits (String (digitChar (n mod 10)) acc) = true).
  { cbn [allDigits]. rewrite Hacc, digitChar_isDigit; [reflexivity |].
    apply Z.mod_pos_bound. lia. }
  destruct (n / 10 =? 0)%Z; [exact Hstep | now apply IH].
Qed.

Lemma digitsAux_length (fuel : nat) : forall n acc,
  String.length acc <= String.length (digitsAux fuel n acc).
Proof.
  induction fuel as [| fuel IH]; intros n acc; cbn [digitsAux]; [lia |].
  destruct (n / 10 =? 0)%Z; cbn [String.length]; [lia |].
  specialize (IH (n / 10)%Z (String (digitChar (n mod 10)) acc)).
  cbn [String.length] in IH. lia.
Qed.

Lemma digitsOf_allDigits (n : Z) : allDigits (digitsOf n) = true.
Proof. now apply digitsAux_allDigits. Qed.

Lemma digitsOf_length (n : Z) : 1 <= String.length (digitsOf n).
Proof.
  unfold digitsOf. cbn [digitsAux].
  destruct (n / 10 =? 0)%Z; cbn [String.length]; [lia |].
  pose proof (digitsAux_length (Z.to_nat (Z.log2 n)) (n / 10)%Z
                (String (digitChar (n mod 10)) "")) as H.
  cbn [String.length] in H. lia.
Qed.

Lemma length_app (a b : string) :
  String.length (a ++ b) = String.length a + String.length b.
Proof. induction a; simpl; auto. Qed.

Lemma length_zeros (n : nat) : String.length (zeros n) = n.
Proof. induction n; simpl; auto. Qed.

Lemma allDigits_substring (s : string) : forall i j,
  allDigits s = true -> allDigits (substring i j s) = true.
Proof.
  induction s as [| c s IH]; intros i j H.
  - now destruct i, j.
  - simpl in H. apply andb_true_iff in H as [Hc Hs].
    destruct i as [| i]; simpl.
    + destruct j as [| j]; simpl; [reflexivity |].
      now rewrite Hc, (IH 0 j).
    + now apply IH.
Qed.

Lemma length_substring (s : string) : forall i j,
  i + j <= String.length s -> String.length (substring i j s) = j.
Proof.
  induction s as [| c s IH]; intros i j H; simpl in H.
  - assert (i = 0 /\ j = 0) as [-> ->] by lia. reflexivity.
  - destruct i as [| i]; simpl.
    + destruct j as [| j]; simpl; [reflexivity |].
      f_equal. apply (IH 0 j). lia.
    + apply IH. lia.
Qed.

Lemma isDigit_not_minus (c : ascii) :
  isDigit c = true -> Ascii.eqb c "-" = false.
Proof.
  intros H. destruct (Ascii.eqb_spec c "-") as [-> |]; [| reflexivity].
  discriminate H.
Qed.

Lemma isDigit_not_point (c : ascii) :
  isDigit c = true -> Ascii.eqb c "." = false.
Proof.
  intros H. destruct (Ascii.eqb_spec c ".") as [-> |]; [| reflexivity].
  discriminate H.
Qed.

Lemma spanDigits_point (a b : string) :
  allDigits a = true -> spanDigits (a ++ String "." b) = (a, String "." b).
Proof.
  induction a as [| c a IH]; intros H; simpl in *; [reflexivity |].
  apply andb_true_iff in H as [Hc Ha].
  now rewrite Hc, (IH Ha).
Qed.

(** The digits, the point and the [f] digits after it. *)
Lemma placePoint_shape (f : nat) (n : Z) :
  f <> 0 ->
  exists a b,
    placePoint f n = a ++ String "." b
    /\ allDigits a = true /\ 1 <= String.length a
    /\ allDigits b = true /\ String.length b = f.
Proof.
  intros Hf. unfold placePoint.
  destruct f as [| f']; [contradiction |].
  set (f := S f') in *.
  set (m := digitsOf n).
  set (m' := if (String.length m <=? f)%nat
             then zeros (f + 1 - String.length m) ++ m else m).
  assert (Hm : allDigits m = true) by apply digitsOf_allDigits.
  assert (Hm' : allDigits m' = true).
  { unfold m'. destruct (String.length m <=? f)%nat; [| exact Hm].
    now rewrite allDigits_app, allDigits_zeros. }
  assert (Hlen : f + 1 <= String.length m').
  { unfold m'. destruct (Nat.leb_spec (String.length m) f) as [Hle | Hgt].
    - rewrite length_app, length_zeros. lia.
    - lia. }
  exists (substring 0 (String.length m' - f) m'),
         (substring (String.length m' - f) f m').
  repeat split.
  - now apply allDigits_substring.
  - rewrite length_substring by lia. lia.
  - now apply allDigits_substring.
  - apply length_substring. lia.
Qed.

Lemma isFixedDecimal_signed (f : nat) (neg : bool) (a b : string) :
  allDigits a = true -> 1 <= String.length a ->
  allDigits b = true -> String.length b = f ->
  isFixedDecimal f ((if neg then "-" else "") ++ a ++ String "." b) = true.
Proof.
  intros Ha Hla Hb Hlb.
  assert (Hbody : isFixedDecimal f ("-" ++ a ++ String "." b) = true
                  /\ isFixedDecimal f (a ++ String "." b) = true).
  { destruct a as [| c a]; [simpl in Hla; lia |].
    pose proof Ha as Ha'. simpl in Ha'.
    apply andb_true_iff in Ha' as [Hc _].
    unfold isFixedDecimal. simpl append.
    cbv beta iota.
    change (Ascii.eqb "-" "-") with true. cbv iota.
    rewrite (isDigit_not_minus c Hc).
    change (String c (a ++ String "." b)) with (String c a ++ String "." b).
    rewrite (spanDigits_point _ b Ha).
    change (Ascii.eqb "." ".") with true.
    rewrite Hb, Hlb, Nat.eqb_refl. now split. }
  destruct neg; [apply Hbody | apply Hbody].
Qed.

(** A double that is not NaN and not infinite has a finite or zero
    specification. *)
Lemma is_finite_SF (x : float) :
  is_finite x = true ->
  Prim2SF x <> S754_nan /\ forall s, Prim2SF x <> S754_infinity s.
Proof.
  unfold is_finite, is_nan, is_infinity. intros H.
  apply negb_true_iff, orb_false_iff in H as [Hnan Hinf].
  apply negb_false_iff in Hnan.
  rewrite FloatAxioms.eqb_spec in Hnan.
  rewrite FloatAxioms.eqb_spec, FloatAxioms.abs_spec in Hinf.
  split.
  - intros E. rewrite E in Hnan. discriminate Hnan.
  - intros s E. rewrite E in Hinf. destruct s; discriminate Hinf.
Qed.

(** [toFixed] with [f > 0] digits renders every number of the fixed range
    with exactly [f] decimal places. *)
Lemma toFixed_fixedRange (nts : float -> string) (f : nat) (x : float) :
  f <> 0 -> fixedRange x = true -> isFixedDecimal f (toFixed nts f x) = true.
Proof.
  intros Hf H. unfold fixedRange in H.
  apply andb_true_iff in H as [Hfin Hsmall].
  apply negb_true_iff in Hsmall.
  destruct (is_finite_SF x Hfin) as [Hnan Hinf].
  unfold toFixed.
  destruct (Prim2SF x) as [s | s | | s m e].
  - destruct (placePoint_shape f 0 Hf) as (a & b & -> & Ha & Hla & Hb & Hlb).
    exact (isFixedDecimal_signed f false a b Ha Hla Hb Hlb).
  - now destruct (Hinf s).
  - now destruct Hnan.
  - rewrite Hsmall.
    destruct (placePoint_shape f (nearestScaled f m e) Hf)
      as (a & b & -> & Ha & Hla & Hb & Hlb).
    exact (isFixedDecimal_signed f s a b Ha Hla Hb Hlb).
Qed.

End NumberProperties.

(* ================================================================= *)
(** * Properties of the map *)

Section MapProperties.

Import MapViz Examples.

(** C2 (as stated) fails: the listener sits on the country paths only.  A
    click on the bare drawing, at a pixel where the inverse projection is
    defined (here a point of the Atlantic, about 30 degrees west and 3
    degrees south on a drawing of 960 by 384), calls nothing. *)
Lemma click_off_country_is_silent :
  let invert := Some (equirectangularInvert 960 384) in
  invertDefined invert (400, 200)%float = true
  /\ click invert Background (400, 200)%float = []
  /\ click invert (CountryPath 0) (400, 200)%float <> [].
Proof. cbv zeta. repeat split. discriminate. Qed.

(** C2 (as amended).  A click on a country path calls [onLocationSelect]
    once, with the latitude and the longitude of the inverse projection,
    exactly when the inverse projection is defined at the pixel; where it
    is not defined, and for a click that lands on no country path, nothing
    is called. *)
Theorem click_selects_iff_invertible
    (invert : option (float * float -> option (float * float)))
    (target : ClickTarget) (pointer : float * float) :
  match target with
  | CountryPath _ =>
      (forall lon lat,
          (exists inv, invert = Some inv /\ inv pointer = Some (lon, lat))
          <-> click invert target pointer = [OnLocationSelect lat lon])
      /\ (invertDefined invert pointer = true
          <-> click invert target pointer <> [])
      /\ (invertDefined invert pointer = false
          <-> click invert target pointer = [])
  | MarkerCircle | Background => click invert target pointer = []
  end.
Proof.
  destruct target as [i | |]; try reflexivity.
  destruct pointer as [x y]. unfold click, onClick, invertDefined.
  destruct invert as [inv |].
  - destruct (inv (x, y)) as [[lon0 lat0] |] eqn:E.
    + repeat split; try discriminate; try reflexivity.
      * intros (inv' & Hinv & Hp). injection Hinv as <-.
        rewrite E in Hp. now injection Hp as -> ->.
      * intros H. injection H as -> ->. now exists inv.
    + repeat split; try discriminate; try reflexivity;
        try (intros H; now contradiction H).
      intros (inv' & Hinv & Hp). injection Hinv as <-. congruence.
  - repeat split; try discriminate; try reflexivity;
      try (intros H; now contradiction H).
    intros (inv' & Hinv & _). discriminate Hinv.
Qed.

End MapProperties.

(* ================================================================= *)
(** * Properties of the AI service *)

Section ServiceProperties.

Import JSArray JSString GeminiService.

Lemma skipn_nth_error {A : Type} (l : list A) : forall k x,
  nth_error l k = Some x -> skipn k l = x :: skipn (S k) l.
Proof.
  induction l as [| a l IH]; intros [| k] x H; simpl in *;
    try discriminate.
  - now injection H as ->.
  - now apply IH.
Qed.

Lemma copyFrom_skipn {A : Type} (count : nat) : forall k (l : list A),
  (k + count = List.length l)%nat -> copyFrom count k l = skipn k l.
Proof.
  induction count as [| count IH]; intros k l H; simpl.
  - symmetry. apply skipn_all2. lia.
  - destruct (nth_error l k) as [x |] eqn:E.
    + rewrite (skipn_nth_error l k x E). f_equal. apply IH. lia.
    + apply nth_error_None in E. lia.
Qed.

(** [l.slice(-n)] with [n > 0] keeps the last [n] elements, all of them
    when there are fewer. *)
Lemma slice_negative {A : Type} (n : nat) (l : list A) :
  (0 < n)%nat -> slice (- Z.of_nat n) l = skipn (List.length l - n) l.
Proof.
  intros Hn. unfold slice.
  replace (- Z.of_nat n <? 0)%Z with true by (symmetry; apply Z.ltb_lt; lia).
  replace (Z.to_nat (Z.max (Z.of_nat (List.length l) + - Z.of_nat n) 0))
    with (List.length l - n)%nat by lia.
  apply copyFrom_skipn. lia.
Qed.

Lemma recentStats_skipn (stats : list ClimateStats) :
  recentStats stats = skipn (List.length stats - 24) stats.
Proof. apply (slice_negative 24 stats). lia. Qed.

(** C10.  [getClimateInsights] makes its only call on a request whose
    text holds, after the words [Data (Last 24 months): ], the
    serialization of the last [min 24 length] samples of the list, in
    their order, and nothing else of the list: two lists with the same
    last 24 samples give the same request and the same result, whatever
    comes before. *)
Theorem request_reads_last_24 (env : Env) (stats : list ClimateStats)
    (lat lon : float) :
  recentStats stats = skipn (List.length stats - 24) stats
  /\ List.length (recentStats stats) = Nat.min 24 (List.length stats)
  /\ (exists earlier, stats = (earlier ++ recentStats stats)%list)
  /\ contents (insightsRequest env stats lat lon)
     = prompt env (recentStats stats) lat lon
  /\ (forall stats',
        skipn (List.length stats' - 24) stats'
        = skipn (List.length stats - 24) stats ->
        insightsRequest env stats' lat lon = insightsRequest env stats lat lon
        /\ getClimateInsights env stats' lat lon
           = getClimateInsights env stats lat lon)
  /\ insightsRequest env stats lat lon
     = {| model := "gemini-3-pro-preview";
          contents :=
            LF ++ "      Analyze the following climate data for location ("
            ++ numberToString env lat ++ ", " ++ numberToString env lon
            ++ ")."
            ++ LF ++ "      Data (Last 24 months): "
            ++ JSON_stringify env (skipn (List.length stats - 24) stats)
            ++ LF ++ "      "
            ++ LF ++ "      Task:"
            ++ LF ++ "      1. Provide a concise summary of recent trends (temperature, rainfall, vegetation)."
            ++ LF ++ "      2. Predict potential risks for the next 12 months based on historical patterns."
            ++ LF ++ "      3. Identify if there are signs of drought or flood risks."
            ++ LF ++ "    ";
          thinkingBudget := 32768;
          responseMimeType := "application/json" |}
  /\ (forall answer : Request -> Outcome (option string),
        answer (insightsRequest env stats lat lon)
        = generateContent env (insightsRequest env stats lat lon) ->
        getClimateInsights
          {| numberToString := numberToString env;
             JSON_stringify := JSON_stringify env;
             JSON_parse := JSON_parse env;
             generateContent := answer |} stats lat lon
        = getClimateInsights env stats lat lon)
  /\ getClimateInsights env stats lat lon
     = match generateContent env (insightsRequest env stats lat lon) with
       | Resolved text =>
           match JSON_parse env (textOrEmptyObject text) with
           | Some insights => insights
           | None => fallbackInsights
           end
       | Rejected _ => fallbackInsights
       end.
Proof.
  pose proof (recentStats_skipn stats) as Hr.
  split; [exact Hr |].
  split; [| split; [| split; [| split; [| split; [| split]]]]].
  - rewrite Hr, length_skipn. lia.
  - exists (firstn (List.length stats - 24) stats).
    rewrite Hr. symmetry. apply firstn_skipn.
  - unfold insightsRequest, prompt. simpl.
    rewrite (recentStats_skipn (recentStats stats)), Hr.
    rewrite length_skipn.
    replace (List.length stats - (List.length stats - 24) - 24)%nat
      with 0%nat by lia.
    reflexivity.
  - intros stats' H.
    assert (Hreq : insightsRequest env stats' lat lon
                   = insightsRequest env stats lat lon).
    { unfold insightsRequest, prompt.
      now rewrite (recentStats_skipn stats'), Hr, H. }
    split; [exact Hreq |].
    unfold getClimateInsights. now rewrite Hreq.
  - unfold insightsRequest, prompt. now rewrite Hr.
  - intros answer Hanswer. unfold getClimateInsights.
    cbn [generateContent JSON_parse].
    change (insightsRequest
              {| numberToString := numberToString env;
                 JSON_stringify := JSON_stringify env;
                 JSON_parse := JSON_parse env;
                 generateContent := answer |} stats lat lon)
      with (insightsRequest env stats lat lon).
    now rewrite Hanswer.
  - reflexivity.
Qed.

(** Whatever fails inside [try], the result is the object of the [catch]
    branch. *)
Lemma getClimateInsights_fallback (env : Env) (stats : list ClimateStats)
    (lat lon : float) :
  aiStepFails env stats lat lon = true ->
  getClimateInsights env stats lat lon = fallbackInsights.
Proof.
  unfold aiStepFails, getClimateInsights.
  destruct (generateContent env _) as [text | reason]; [| reflexivity].
  destruct (JSON_parse env _); [discriminate | reflexivity].
Qed.

End ServiceProperties.

(* ================================================================= *)
(** * Properties of the view container *)

Section DashboardProperties.

Import JSNumber JSString GeminiService Dashboard Examples.
Open Scope nat_scope.
Open Scope string_scope.

Variable host : Host.

(** C1.  When the AI step fails, by a rejected call or by a text that does
    not parse, [getClimateInsights] gives the static fallback object and
    nothing is thrown further; the refresh ends with the fetched data set
    in [data], the fallback in [prediction] and both flags cleared. *)
Theorem ai_failure_keeps_dataset (s : State host)
    (stats : list ClimateStats) :
  fetchClimateData host (lat s) (lon s) (startYear s) (endYear s)
  = Resolved stats ->
  aiStepFails (env host) stats (lat s) (lon s) = true ->
  getClimateInsights (env host) stats (lat s) (lon s) = fallbackInsights
  /\ summary fallbackInsights
     = "AI Analysis unavailable. Displaying raw data only."
  /\ map riskLevel (predictions fallbackInsights) = ["Medium"]
  /\ data (fst (loadData host s)) = stats
  /\ prediction (fst (loadData host s)) = Some fallbackInsights
  /\ loading (fst (loadData host s)) = false
  /\ analyzing (fst (loadData host s)) = false
  /\ snd (loadData host s)
     = [ClimateDataRequest (lat s) (lon s) (startYear s) (endYear s);
        InsightsRequest stats (lat s) (lon s)].
Proof.
  intros Hfetch Hfail.
  pose proof (getClimateInsights_fallback _ _ _ _ Hfail) as Hfb.
  unfold loadData. rewrite Hfetch, Hfb. simpl. repeat split.
Qed.

(** C9.  A selection on the map stores the new point and nothing else:
    no request is issued and every other field keeps its value. *)
Theorem select_updates_point_only (s : State host) (newLat newLon : float) :
  let s' := fst (dispatch host (MapSelect newLat newLon) s) in
  snd (dispatch host (MapSelect newLat newLon) s) = []
  /\ lat s' = newLat /\ lon s' = newLon
  /\ startYear s' = startYear s /\ endYear s' = endYear s
  /\ data s' = data s /\ calamities s' = calamities s
  /\ loading s' = loading s
  /\ prediction s' = prediction s /\ analyzing s' = analyzing s
  /\ news s' = news s /\ newsLoading s' = newsLoading s
  /\ resources s' = resources s
  /\ resourcesLoading s' = resourcesLoading s.
Proof. cbv zeta. simpl. repeat split. Qed.

(** The search box leaves the state alone unless the key is Enter and the
    text has exactly one comma. *)
Lemma search_ignored (key value : string) (s : State host) :
  String.eqb key "Enter" = false \/ List.length (split "," value) <> 2 ->
  onSearchKeyDown host key value s = (s, []).
Proof.
  intros [Hk | Hl]; unfold onSearchKeyDown.
  - now rewrite Hk.
  - destruct (String.eqb key "Enter"); [| reflexivity].
    destruct (split "," value) as [| p0 [| p1 [| p2 r]]];
      try reflexivity.
    now contradiction Hl.
Qed.

(** C8 fails on the text [abc,def]: it has two parts, neither of them a
    number, and Enter stores NaN in both coordinates. *)
Theorem search_stores_NaN (s : State host) :
  let s' := fst (dispatch host (SearchKeyDown "Enter" "abc,def") s) in
  isNaN (lat s') = true /\ isNaN (lon s') = true
  /\ snd (dispatch host (SearchKeyDown "Enter" "abc,def") s) = [].
Proof. cbv zeta. repeat split. Qed.

(** ** The exports *)

Lemma csvRow_fields (row : ClimateStats) :
  csvRow host row = join "," (date row :: map (fixed host 2) (numericFields row)).
Proof. reflexivity. Qed.

(** C5 (as amended).  With data to export, the download holds the header
    line and one line per sample, joined by line feeds; a line is the date
    followed by the four numbers through [toFixed(2)], which gives exactly
    two decimal places for every finite number below 10^21 in magnitude;
    the sample of the scenario gives the line of the scenario. *)
Theorem csv_export_rows (s : State host) :
  data s <> [] ->
  handleDownloadCSV host s
  = (s, [Download
           ("climate_data_" ++ fixed host 2 (lat s) ++ "_"
            ++ fixed host 2 (lon s) ++ ".csv")
           "text/csv;charset=utf-8;"
           (join LF
              ("Date,Temperature (C),Rainfall (mm),NDVI,Anomaly"
               :: map (csvRow host) (data s)))])
  /\ List.length (map (csvRow host) (data s)) = List.length (data s)
  /\ (forall row, In row (data s) ->
        csvRow host row
        = join "," (date row :: map (fixed host 2) (numericFields row))
        /\ forall v, In v (numericFields row) -> fixedRange v = true ->
             isFixedDecimal 2 (fixed host 2 v) = true)
  /\ csvContent host [sample]
     = "Date,Temperature (C),Rainfall (mm),NDVI,Anomaly" ++ LF
       ++ "2023-01,21.50,3.20,0.41,-0.30".
Proof.
  intros Hdata. split; [| split; [| split]].
  - unfold handleDownloadCSV. destruct (data s); [contradiction | reflexivity].
  - apply length_map.
  - intros row _. split; [apply csvRow_fields |].
    intros v _ Hv. apply toFixed_fixedRange; [discriminate | exact Hv].
  - vm_compute. reflexivity.
Qed.

(** C6 (as amended).  Without data the CSV export only raises its notice,
    and without a prediction the report export only raises its notice;
    neither produces a download.  With the state present each export
    leaves the state as it is, issues no request and produces one
    download: the CSV text is computed from the held data alone, the
    report from the held state and from the date and time of the call,
    which fills its [Generated:] line and nothing else. *)
Theorem export_requires_state (s : State host) (now : string) :
  (data s = [] ->
     dispatch host DownloadCSVClick s
     = (s, [Alert "No data available to download."]))
  /\ (prediction s = None ->
        dispatch host (ExportReportClick now) s
        = (s, [Alert "Please run analysis first to generate a report."]))
  /\ (data s <> [] ->
        dispatch host DownloadCSVClick s
        = (s, [Download
                 ("climate_data_" ++ fixed host 2 (lat s) ++ "_"
                  ++ fixed host 2 (lon s) ++ ".csv")
                 "text/csv;charset=utf-8;"
                 (csvContent host (data s))]))
  /\ (forall p, prediction s = Some p ->
        dispatch host (ExportReportClick now) s
        = (s, [Download
                 ("climate_report_" ++ fixed host 2 (lat s) ++ "_"
                  ++ fixed host 2 (lon s) ++ ".txt")
                 "text/plain;charset=utf-8;"
                 (reportContent host now p s)])
        /\ exists rest, forall now',
             reportContent host now' p s
             = "ROTATER INTELLIGENCE REPORT" ++ LF
               ++ "Generated: " ++ now' ++ LF ++ rest)
  /\ filter isServiceRequest (snd (dispatch host DownloadCSVClick s)) = []
  /\ filter isServiceRequest (snd (dispatch host (ExportReportClick now) s))
     = [].
Proof.
  simpl. unfold handleDownloadCSV, handleExportReport.
  repeat split.
  - intros H. now rewrite H.
  - intros H. now rewrite H.
  - intros H. destruct (data s); [contradiction | reflexivity].
  - now rewrite H.
  - eexists. intros now'. unfold reportContent. reflexivity.
  - now destruct (data s).
  - now destruct (prediction s).
Qed.

End DashboardProperties.

(* ================================================================= *)
(** * The container on the concrete instance *)

Section DashboardExamples.

Import JSNumber JSString GeminiService Dashboard Examples.
Open Scope string_scope.

(** The first refresh with the AI service down. *)
Lemma ai_failure_keeps_dataset_witness :
  fetchClimateData offlineHost 20.5937 78.9629 2020 2023 = Resolved [sample]
  /\ aiStepFails offlineEnv [sample] 20.5937 78.9629 = true
  /\ data loadedState = [sample]
  /\ prediction loadedState = Some fallbackInsights.
Proof.
  split; [reflexivity |]. split; [reflexivity |].
  destruct (ai_failure_keeps_dataset offlineHost (initialState offlineHost)
              [sample] eq_refl eq_refl)
    as (_ & _ & _ & Hdata & Hprediction & _).
  split; [exact Hdata | exact Hprediction].
Defined.

(** The export of the data set of the scenario. *)
Lemma csv_export_rows_witness :
  data loadedState = [sample]
  /\ snd (handleDownloadCSV offlineHost loadedState)
     = [Download "climate_data_20.59_78.96.csv" "text/csv;charset=utf-8;"
          ("Date,Temperature (C),Rainfall (mm),NDVI,Anomaly" ++ LF
           ++ "2023-01,21.50,3.20,0.41,-0.30")].
Proof.
  split; [reflexivity |].
  assert (Hdata : data loadedState <> []) by (vm_compute; discriminate).
  destruct (csv_export_rows offlineHost loadedState Hdata) as (Hexport & _).
  rewrite Hexport. vm_compute. reflexivity.
Defined.

(** C5 (as stated) fails on a sample whose temperature is NaN: the field
    is printed as [NaN], without decimal places. *)
Lemma csv_row_of_NaN_sample :
  let s := setData offlineHost [nanSample] (initialState offlineHost) in
  data s <> []
  /\ snd (handleDownloadCSV offlineHost s)
     = [Download "climate_data_20.59_78.96.csv" "text/csv;charset=utf-8;"
          ("Date,Temperature (C),Rainfall (mm),NDVI,Anomaly" ++ LF
           ++ "2023-01,NaN,3.20,0.41,-0.30")]
  /\ isFixedDecimal 2 (fixed offlineHost 2 (temperature nanSample)) = false.
Proof.
  cbv zeta. split; [discriminate |].
  split; vm_compute; reflexivity.
Qed.

(** C6 (as stated) fails for the report: with the same state held, two
    calls at different times give different texts. *)
Lemma report_depends_on_clock :
  prediction loadedState = Some fallbackInsights
  /\ fst (handleExportReport offlineHost "11/1/2026, 9:00:00 AM" loadedState)
     = loadedState
  /\ snd (handleExportReport offlineHost "11/1/2026, 9:00:00 AM" loadedState)
     <> snd (handleExportReport offlineHost "11/1/2026, 9:00:01 AM"
               loadedState).
Proof.
  split; [reflexivity |]. split; [reflexivity |].
  vm_compute. intros H. discriminate H.
Qed.

End DashboardExamples.

(* ================================================================= *)
(** * Histories of the intro globe: properties *)

Section GlobeHistoryProperties.

Import JSNumber IntroGlobe GlobeHistory.
Open Scope float_scope.

Lemma mount_steady w h cw ch sts :
  steady sts 1 (mount w h cw ch sts) /\ sized (w, h) (mount w h cw ch sts).
Proof.
  split; [| repeat split].
  unfold steady. simpl. repeat split.
  rewrite List.length_app, length_map. simpl. lia.
Qed.

Lemma step_steady (sts : list Star) (e : Event) (n : nat)
    (sz : float * float) (g : Globe) :
  steady sts n g -> sized sz g -> isUnmount e = false ->
  steady sts (if isFrame e then S n else n) (step e g)
  /\ sized (lastSize [e] sz) (step e g).
Proof.
  intros (Hr & Hp & Hl & Hs & Hd & Hrot) (Hw & Hh & Hcw & Hch & Hk & Ht) Hu.
  destruct e as [t | w h | ]; simpl in *.
  - rewrite Hp. unfold render. simpl. rewrite Hr. simpl.
    split; [| repeat split; assumption].
    repeat split; try assumption.
    cbn [drawLog]. rewrite List.length_app. cbn [List.length].
    rewrite List.length_app, length_map, Hs, Hd. cbn [List.length]. lia.
  - rewrite Hl. simpl. split; repeat split; assumption.
  - discriminate.
Qed.

Lemma lastSize_cons (e : Event) (es : list Event) (sz : float * float) :
  lastSize (e :: es) sz = lastSize es (lastSize [e] sz).
Proof. reflexivity. Qed.

Lemma run_steady (sts : list Star) (es : list Event) : forall n sz g,
  steady sts n g -> sized sz g ->
  forallb (fun e => negb (isUnmount e)) es = true ->
  steady sts (n + framesCalled es) (run es g)
  /\ sized (lastSize es sz) (run es g).
Proof.
  induction es as [| e es IH]; intros n sz g Hg Hsz Hes.
  - unfold framesCalled. simpl. now rewrite Nat.add_0_r.
  - simpl in Hes. apply andb_true_iff in Hes as [He Hes].
    apply negb_true_iff in He.
    destruct (step_steady sts e n sz g Hg Hsz He) as [Hg' Hsz'].
    destruct (IH _ _ _ Hg' Hsz' Hes) as [IHg IHsz].
    rewrite lastSize_cons. split; [| exact IHsz].
    change (run (e :: es) g) with (run es (step e g)).
    unfold framesCalled in *. simpl.
    destruct (isFrame e); simpl; [| exact IHg].
    now rewrite Nat.add_succ_r.
Qed.

(** Every pass of [render] makes the same number of canvas calls, five and
    one per star, and the star field is the one of the mount. *)
Theorem globe_draws_per_frame (w h cw ch : float) (sts : list Star)
    (es : list Event) :
  forallb (fun e => negb (isUnmount e)) es = true ->
  drawCalls (run es (mount w h cw ch sts))
  = (framesRendered es * (List.length sts + 5))%nat
  /\ stars (run es (mount w h cw ch sts)) = sts.
Proof.
  intros Hes.
  destruct (mount_steady w h cw ch sts) as [Hm Hsz].
  destruct (run_steady sts es 1 (w, h) _ Hm Hsz Hes)
    as [(_ & _ & _ & Hs & Hd & _) _].
  split; [exact Hd | exact Hs].
Qed.

Lemma globe_draws_per_frame_witness :
  drawCalls
    (run [AnimationFrame 16.7; WindowResize 1024 768; AnimationFrame 33.4]
       (mount 800 600 300 150 [mkStar 1 2 1.5 0.5; mkStar 3 4 0.5 1]))
  = 21%nat.
Proof.
  apply (globe_draws_per_frame 800 600 300 150
           [mkStar 1 2 1.5 0.5; mkStar 3 4 0.5 1]
           [AnimationFrame 16.7; WindowResize 1024 768; AnimationFrame 33.4]).
  reflexivity.
Defined.

(** While the globe is mounted exactly one callback is queued, the resize
    listener is registered, and the projection is tilted by -15 and turned
    by the current rotation. *)
Theorem globe_keeps_one_frame_queued (w h cw ch : float) (sts : list Star)
    (es : list Event) :
  forallb (fun e => negb (isUnmount e)) es = true ->
  let g := run es (mount w h cw ch sts) in
  isRunning g = true /\ pendingFrames g = 1%nat /\ resizeListener g = true
  /\ projRotate g = (rotation g, -15).
Proof.
  intros Hes.
  destruct (mount_steady w h cw ch sts) as [Hm Hsz].
  destruct (run_steady sts es 1 (w, h) _ Hm Hsz Hes)
    as [(Hr & Hp & Hl & _ & _ & Hrot) _].
  cbv zeta. auto.
Qed.

Lemma globe_keeps_one_frame_queued_witness :
  pendingFrames
    (run [AnimationFrame 16.7; AnimationFrame 33.4; WindowResize 640 480]
       (mount 800 600 300 150 []))
  = 1%nat.
Proof.
  apply (globe_keeps_one_frame_queued 800 600 300 150 []
           [AnimationFrame 16.7; AnimationFrame 33.4; WindowResize 640 480]).
  reflexivity.
Defined.

(** While the globe is mounted, the variables, the canvas and the
    projection all have the size of the last resize (of the mount when
    there was none): scale [height / 2.5], centre in the middle. *)
Theorem globe_size_follows_resize (w h cw ch : float) (sts : list Star)
    (es : list Event) :
  forallb (fun e => negb (isUnmount e)) es = true ->
  sized (lastSize es (w, h)) (run es (mount w h cw ch sts)).
Proof.
  intros Hes.
  destruct (mount_steady w h cw ch sts) as [Hm Hsz].
  exact (proj2 (run_steady sts es 1 (w, h) _ Hm Hsz Hes)).
Qed.

Lemma globe_size_follows_resize_witness :
  sized (1024, 768)
    (run [AnimationFrame 16.7; WindowResize 1024 768; AnimationFrame 33.4]
       (mount 800 600 300 150 [])).
Proof.
  apply (globe_size_follows_resize 800 600 300 150 []
           [AnimationFrame 16.7; WindowResize 1024 768; AnimationFrame 33.4]).
  reflexivity.
Defined.

Lemma step_after_cleanup (e : Event) (n : nat) (g : Globe) :
  step e (withPending n (cleanup g))
  = withPending (if isFrame e then pred n else n) (cleanup g).
Proof.
  destruct e as [t | w h |]; simpl; try reflexivity.
  now destruct n.
Qed.

(** After the clean-up the globe is frozen: frames that were queued are
    called and dropped, resizes reach no listener, and nothing but the
    length of the queue changes. *)
Theorem globe_frozen_after_unmount (g : Globe) (es : list Event) :
  run es (cleanup g)
  = withPending (pendingFrames g - framesCalled es) (cleanup g).
Proof.
  assert (H : forall es n,
             run es (withPending n (cleanup g))
             = withPending (n - framesCalled es) (cleanup g)).
  { clear es. induction es as [| e es IH]; intros n.
    - unfold framesCalled. simpl. now rewrite Nat.sub_0_r.
    - change (run (e :: es) (withPending n (cleanup g)))
        with (run es (step e (withPending n (cleanup g)))).
      rewrite step_after_cleanup, IH. f_equal.
      unfold framesCalled. simpl. destruct (isFrame e); simpl; lia. }
  exact (H es (pendingFrames g)).
Qed.

End GlobeHistoryProperties.

(* ================================================================= *)
(** * The drawing of the map and the grounded lookups: properties *)

Section MapDrawingProperties.

Import JSNumber GeminiService MapDrawing.
Open Scope float_scope.

Lemma filter_isPath_paths (l : list nat) :
  filter isPath (map CountryPathElement l) = map CountryPathElement l.
Proof. induction l as [| i l IH]; simpl; [reflexivity | now rewrite IH]. Qed.

Lemma filter_isPath_marker project lat lon :
  filter isPath (drawMarker project lat lon) = [].
Proof.
  unfold drawMarker.
  destruct (truthy lat && truthy lon); [| reflexivity].
  now destruct (project (lon, lat)).
Qed.

(** The marker of the selected point is drawn, as two circles on the
    projected pixel and after all the country paths, only when neither
    coordinate is zero or NaN and the projection is defined: a point on
    the equator or on the Greenwich meridian gets none.  When the geometry
    does not arrive nothing is drawn at all. *)
Theorem marker_needs_nonzero_coordinates
    (project : float * float -> option (float * float))
    (features : nat) (lat lon : float) (reason : string) :
  let paths := map CountryPathElement (seq 0 features) in
  let drawn := drawMap true (Resolved features) project lat lon in
  filter isPath drawn = paths
  /\ (forall cx cy,
        (drawn = (paths ++ [PulseCircle cx cy; MarkerDot cx cy])%list
         <-> ((lat =? 0) = false /\ (lon =? 0) = false
              /\ isNaN lat = false /\ isNaN lon = false
              /\ project (lon, lat) = Some (cx, cy))))
  /\ (drawn = paths
      <-> ((lat =? 0) = true \/ (lon =? 0) = true
           \/ isNaN lat = true \/ isNaN lon = true
           \/ project (lon, lat) = None))
  /\ drawMap true (Resolved features) project 0 lon = paths
  /\ drawMap true (Resolved features) project lat 0 = paths
  /\ drawMap true (Rejected reason) project lat lon = []
  /\ drawMap false (Resolved features) project lat lon = [].
Proof.
  cbv zeta. unfold drawMap.
  split; [rewrite filter_app, filter_isPath_paths, filter_isPath_marker;
          apply app_nil_r |].
  split; [| split; [| repeat split]].
  - intros cx cy. unfold drawMarker, truthy.
    destruct (lat =? 0), (lon =? 0), (isNaN lat), (isNaN lon);
      simpl;
      try (split;
           [ intros H; apply app_inv_head in H; discriminate H
           | intros (H1 & H2 & H3 & H4 & _); discriminate ]).
    destruct (project (lon, lat)) as [[px py] |]; simpl.
    + split.
      * intros H. apply app_inv_head in H. injection H as -> ->. auto.
      * intros (_ & _ & _ & _ & H). now injection H as -> ->.
    + split.
      * intros H. apply app_inv_head in H. discriminate H.
      * intros (_ & _ & _ & _ & H). discriminate H.
  - unfold drawMarker, truthy.
    destruct (lat =? 0), (lon =? 0), (isNaN lat), (isNaN lon);
      simpl; try (rewrite app_nil_r; split; auto).
    destruct (project (lon, lat)) as [[px py] |]; simpl.
    + split.
      * intros H. rewrite <- (app_nil_r (map _ _)) in H at 2.
        apply app_inv_head in H. discriminate H.
      * intros [H | [H | [H | [H | H]]]]; discriminate H.
    + rewrite app_nil_r. split; auto.
  - unfold drawMarker. simpl. apply app_nil_r.
  - unfold drawMarker.
    replace (truthy lat && truthy 0) with false
      by (unfold truthy; simpl; now rewrite andb_false_r).
    apply app_nil_r.
Qed.

End MapDrawingProperties.

Section GroundingProperties.

Import GeminiService Dashboard Grounding.
Open Scope string_scope.

Variable numberToString : float -> string.
Variable generateContent : LookupRequest -> Outcome Response.

Lemma source_eta (w : GroundingSource) :
  {| title := title w; uri := uri w |} = w.
Proof. now destruct w. Qed.

Lemma collectSources_flat_map (chunks : list Chunk) :
  collectSources chunks = flat_map sourceOf chunks.
Proof.
  unfold collectSources.
  assert (H : forall acc,
             fold_left
               (fun acc chunk =>
                  match web chunk with
                  | Some w => acc ++ [ {| title := title w; uri := uri w |} ]
                  | None => acc
                  end)%list chunks acc
             = (acc ++ flat_map sourceOf chunks)%list).
  { induction chunks as [| c chunks IH]; intros acc; simpl.
    - now rewrite app_nil_r.
    - rewrite IH. unfold sourceOf at 2.
      destruct (web c) as [w |]; simpl; [| reflexivity].
      now rewrite source_eta, <- app_assoc. }
  exact (H []).
Qed.

Lemma collectPoints_flat_map (chunks : list Chunk) :
  collectPoints chunks = flat_map pointOf chunks.
Proof.
  unfold collectPoints.
  assert (H : forall acc,
             fold_left
               (fun acc chunk =>
                  match maps chunk with
                  | Some m => acc ++ [ {| title := title m; uri := uri m |} ]
                  | None =>
                      match web chunk with
                      | Some w =>
                          acc ++ [ {| title := title w; uri := uri w |} ]
                      | None => acc
                      end
                  end)%list chunks acc
             = (acc ++ flat_map pointOf chunks)%list).
  { induction chunks as [| c chunks IH]; intros acc; simpl.
    - now rewrite app_nil_r.
    - rewrite IH. unfold pointOf at 2.
      destruct (maps c) as [m |]; simpl.
      + now rewrite source_eta, <- app_assoc.
      + destruct (web c) as [w |]; simpl; [| reflexivity].
        now rewrite source_eta, <- app_assoc. }
  exact (H []).
Qed.

Lemma textOr_nonempty (fallback : string) (t : option string) :
  fallback <> "" -> textOr fallback t <> "".
Proof.
  intros Hf. unfold textOr.
  destruct t as [[| c r] |]; try exact Hf. discriminate.
Qed.

Lemma flat_map_length_le {A B : Type} (f : A -> list B) (l : list A) :
  (forall a, List.length (f a) <= 1)%nat ->
  (List.length (flat_map f l) <= List.length l)%nat.
Proof.
  intros Hf. induction l as [| a l IH]; simpl; [lia |].
  rewrite List.length_app. specialize (Hf a). lia.
Qed.

(** [getLocalNews] never gives an empty summary; its sources are the [web]
    parts of the chunks of the response, each once and in the order of the
    chunks, so never more than there are chunks, and none when the call
    fails or the response carries no chunks. *)
Theorem news_lists_web_citations (lat lon : float) :
  let result := getLocalNews numberToString generateContent lat lon in
  news_summary result <> ""
  /\ match generateContent (newsRequest numberToString lat lon) with
     | Resolved response =>
         sources result = flat_map sourceOf (chunksOf response)
         /\ (List.length (sources result)
             <= List.length (chunksOf response))%nat
         /\ (groundingChunks response = None -> sources result = [])
         /\ (text response = None \/ text response = Some "" ->
             news_summary result = "No recent news found.")
     | Rejected _ =>
         result
         = {| news_summary := "Could not fetch news."; sources := [] |}
     end.
Proof.
  cbv zeta. unfold getLocalNews.
  destruct (generateContent _) as [response | reason]; simpl.
  - split; [apply textOr_nonempty; discriminate |].
    rewrite collectSources_flat_map. repeat split.
    + apply flat_map_length_le. intros c. unfold sourceOf.
      destruct (web c); simpl; lia.
    + intros H. unfold chunksOf. now rewrite H.
    + intros [H | H]; now rewrite H.
  - split; [discriminate | reflexivity].
Qed.

(** [getNearbyResources] never gives an empty answer; every chunk of the
    response gives at most one point, its [maps] part when it has one and
    its [web] part otherwise, in the order of the chunks; so the points
    are at least as many as the [web] citations alone and at most as many
    as the chunks. *)
Theorem resources_list_one_point_per_chunk (lat lon : float) :
  let result := getNearbyResources generateContent lat lon in
  answer result <> ""
  /\ match generateContent (resourcesRequest lat lon) with
     | Resolved response =>
         points result = flat_map pointOf (chunksOf response)
         /\ (List.length (points result)
             <= List.length (chunksOf response))%nat
         /\ (List.length (filter (fun c => match maps c with
                                            | Some _ => true
                                            | None => false
                                            end) (chunksOf response))
             <= List.length (points result))%nat
         /\ (List.length (flat_map sourceOf (chunksOf response))
             <= List.length (points result))%nat
     | Rejected _ =>
         result
         = {| answer := "Could not fetch resources."; points := [] |}
     end.
Proof.
  cbv zeta. unfold getNearbyResources.
  destruct (generateContent _) as [response | reason]; simpl.
  - split; [apply textOr_nonempty; discriminate |].
    rewrite collectPoints_flat_map. split; [reflexivity |].
    generalize (chunksOf response) as chunks. intros chunks.
    induction chunks as [| c chunks (IH1 & IH2 & IH3)];
      simpl; [repeat split; lia |].
    rewrite !List.length_app. unfold pointOf at 1 3 5, sourceOf at 1.
    destruct (maps c), (web c); simpl; repeat split; lia.
  - split; [discriminate | reflexivity].
Qed.

End GroundingProperties.

(* ================================================================= *)
(** * The chat assistant: properties *)

Section ChatProperties.

Import GeminiService ChatAssistant.
Open Scope string_scope.

Variable trim : string -> string.

Lemma sentTexts_app (fx fx' : list Effect) :
  sentTexts (fx ++ fx') = (sentTexts fx ++ sentTexts fx')%list.
Proof. apply flat_map_app. Qed.

(** What the effect hook does: it may create the session, and nothing
    else changes. *)
Lemma effect_spec (s : State) :
  let (s', fx) := effect s in
  isOpen s' = isOpen s /\ messages s' = messages s /\ input s' = input s
  /\ isTyping s' = isTyping s /\ inFlight s' = inFlight s
  /\ sentTexts fx = []
  /\ chatSession s'
     = (if isOpen s then
          match chatSession s with
          | Some c => Some c
          | None => Some createChatSession
          end
        else chatSession s)
  /\ List.length (filter isCreate fx)
     = (if isOpen s then
          match chatSession s with Some _ => 0 | None => 1 end
        else 0)%nat.
Proof.
  unfold effect.
  destruct (isOpen s) eqn:Ho, (chatSession s) eqn:Hc; simpl;
    rewrite ?Ho, ?Hc; repeat split; reflexivity.
Qed.

Ltac split_lists :=
  rewrite ?filter_app, ?map_app, ?List.length_app, ?sentTexts_app,
    ?app_nil_r;
  cbn [filter map List.length sentTexts flat_map isUser isModel isCreate
       role text app];
  rewrite ?List.length_app; cbn [List.length].

Ltac split_consistent :=
  split; [| split; [| split; [| split; [| split]]]].

Lemma effect_consistent (s : State) (fx : list Effect) :
  accounted trim (s, fx) ->
  consistent trim (fst (effect s), (fx ++ snd (effect s))%list).
Proof.
  intros (Hknown & Hcreate & Hsent & Hblank & Hcount & Htyping).
  pose proof (effect_spec s) as Heff.
  destruct (effect s) as [s' fx'].
  destruct Heff as (Ho & Hm & Hi & Ht & Hn & Hs & Hc & Hl).
  unfold consistent, accounted. cbn [fst snd].
  rewrite Ho, Hm, Ht, Hn, Hc, sentTexts_app, Hs, app_nil_r,
    filter_app, List.length_app, Hl, Hcreate.
  split; [split_consistent; try assumption |].
  - intros c. destruct (isOpen s), (chatSession s) as [c0 |] eqn:E;
      intros H; try (now apply Hknown); try discriminate.
    now injection H as <-.
  - destruct (isOpen s), (chatSession s); reflexivity.
  - intros ->. now destruct (chatSession s).
Qed.

Lemma unchanged_consistent (s : State) (fx : list Effect) :
  consistent trim (s, fx) -> consistent trim (s, (fx ++ [])%list).
Proof. now rewrite app_nil_r. Qed.

Lemma handleSend_consistent (s : State) (fx : list Effect) :
  consistent trim (s, fx) ->
  consistent trim
    (fst (handleSend trim s), (fx ++ snd (handleSend trim s))%list).
Proof.
  intros H. unfold handleSend.
  destruct (trim (input s)) as [| c r] eqn:Htrim;
    [now apply unchanged_consistent |].
  destruct (chatSession s) as [chat |] eqn:Hchat;
    [| now apply unchanged_consistent].
  set (s0 := {| isOpen := isOpen s;
                messages := (messages s
                             ++ [ {| role := RoleUser; text := input s |} ])%list;
                input := "";
                isTyping := true;
                chatSession := Some chat;
                inFlight := S (inFlight s) |}).
  assert (H0 : accounted trim (s0, (fx ++ [SendMessage (input s)])%list)).
  { destruct H as [(Hknown & Hcreate & Hsent & Hblank & Hcount & Htyping) _].
    unfold accounted, s0.
    cbn [isOpen messages chatSession inFlight isTyping].
    rewrite Hchat in *. split_lists.
    split_consistent.
    - exact Hknown.
    - rewrite Hcreate. lia.
    - now rewrite Hsent.
    - apply Forall_app. split; [exact Hblank |].
      constructor; [| constructor]. rewrite Htrim. discriminate.
    - lia.
    - intros _. lia. }
  pose proof (effect_consistent s0 _ H0) as H'.
  destruct (effect s0) as [s' fx'] eqn:E. cbn [fst snd] in *.
  now rewrite <- app_assoc in H'.
Qed.

Lemma settle_consistent (outcome : Outcome (option string)) (s : State)
    (fx : list Effect) (n : nat) :
  inFlight s = S n ->
  consistent trim (s, fx) ->
  consistent trim
    (fst (settle outcome s), (fx ++ snd (settle outcome s))%list).
Proof.
  intros Hn H. unfold settle. apply effect_consistent.
  destruct H as [(Hknown & Hcreate & Hsent & Hblank & Hcount & Htyping) _].
  unfold accounted. cbn [isOpen messages chatSession inFlight isTyping].
  rewrite Hn in *. split_lists.
  split_consistent; try assumption.
  - lia.
  - discriminate.
Qed.

Lemma dispatch_consistent (e : Event) (s : State) (fx : list Effect) :
  consistent trim (s, fx) ->
  consistent trim
    (fst (dispatch trim e s), (fx ++ snd (dispatch trim e s))%list).
Proof.
  intros H.
  pose proof (unchanged_consistent s fx H) as Hsame.
  destruct e as [| | v | key | | outcome]; cbn [dispatch].
  - destruct (isOpen s); [exact Hsame |].
    apply effect_consistent. exact (proj1 H).
  - destruct (isOpen s); [| exact Hsame].
    apply effect_consistent. exact (proj1 H).
  - destruct (isOpen s) eqn:Ho; [| exact Hsame].
    cbn [fst snd]. rewrite app_nil_r.
    destruct H as [Hacc Hopen]. split; [exact Hacc |].
    cbn [fst setInput isOpen chatSession]. exact Hopen.
  - destruct (isOpen s && String.eqb key "Enter");
      [now apply handleSend_consistent | exact Hsame].
  - destruct (isOpen s && negb (isTyping s));
      [now apply handleSend_consistent | exact Hsame].
  - destruct (inFlight s) as [| n] eqn:Hn; [exact Hsame |].
    now apply (settle_consistent outcome s fx n).
Qed.

Lemma run_consistent (es : list Event) : forall st,
  consistent trim st -> consistent trim (run trim es st).
Proof.
  induction es as [| e es IH]; intros [s fx] H; cbn [run]; [exact H |].
  cbn [fst snd].
  pose proof (dispatch_consistent e s fx H) as H'.
  destruct (dispatch trim e s) as [s' fx']. now apply IH.
Qed.

Lemma history_consistent (es : list Event) :
  consistent trim (history trim es).
Proof.
  apply run_consistent.
  apply (effect_consistent initialState []).
  unfold accounted. simpl. split_consistent; try reflexivity.
  - discriminate.
  - constructor.
  - discriminate.
Qed.

(** The chat session is created at most once, with the configuration of
    [createChatSession], and it is there whenever the window is open: the
    guard of [handleSend] on the session never stops a message typed into
    the open window. *)
Theorem chat_session_created_once (es : list Event) :
  let (s, fx) := history trim es in
  (List.length (filter isCreate fx) <= 1)%nat
  /\ (isOpen s = true -> chatSession s = Some createChatSession)
  /\ (List.length (filter isCreate fx) = 0%nat <-> chatSession s = None).
Proof.
  pose proof (history_consistent es) as H.
  destruct (history trim es) as [s fx].
  destruct H as [(Hknown & Hcreate & _) Hopen]. cbn [fst] in Hopen.
  rewrite Hcreate. split; [| split].
  - destruct (chatSession s); lia.
  - intros Ho. specialize (Hopen Ho).
    destruct (chatSession s) as [c |] eqn:E; [| contradiction].
    now rewrite (Hknown c eq_refl).
  - destruct (chatSession s); split; intros H; try discriminate; auto.
Qed.

(** The user messages of the conversation are exactly the texts passed to
    [sendMessage], in the same order, and none of them is blank. *)
Theorem chat_user_messages_are_sent (es : list Event) :
  let (s, fx) := history trim es in
  map text (filter isUser (messages s)) = sentTexts fx
  /\ Forall (fun m => isUser m = true -> trim (text m) <> "") (messages s).
Proof.
  pose proof (history_consistent es) as H.
  destruct (history trim es) as [s fx].
  destruct H as [(_ & _ & Hsent & Hblank & _) _].
  split; [exact Hsent |].
  rewrite <- Hsent in Hblank. clear Hsent.
  induction (messages s) as [| m ms IH]; [constructor |].
  cbn [filter] in Hblank.
  destruct (isUser m) eqn:Hu.
  - cbn [map] in Hblank. inversion Hblank as [| ? ? Hm Hms]; subst.
    constructor; [intros _; exact Hm | now apply IH].
  - constructor; [intros Hu'; congruence | now apply IH].
Qed.

Lemma effect_messages (s : State) :
  messages (fst (effect s)) = messages s.
Proof.
  pose proof (effect_spec s) as H. destruct (effect s) as [s' fx'].
  now destruct H as (_ & Hm & _).
Qed.

Lemma dispatch_extends (e : Event) (s : State) :
  exists later,
    messages (fst (dispatch trim e s)) = (messages s ++ later)%list.
Proof.
  assert (Hsame : exists later, messages s = (messages s ++ later)%list)
    by (exists []; now rewrite app_nil_r).
  assert (Hsend : exists later,
             messages (fst (handleSend trim s)) = (messages s ++ later)%list).
  { unfold handleSend.
    destruct (trim (input s)); [exact Hsame |].
    destruct (chatSession s); [| exact Hsame].
    match goal with
    | |- context [effect ?s0] =>
        pose proof (effect_messages s0) as Hm; destruct (effect s0) as [s' fx']
    end.
    cbn [fst] in *. rewrite Hm. cbn [messages]. now eexists. }
  destruct e as [| | v | key | | outcome]; cbn [dispatch].
  - destruct (isOpen s); [exact Hsame |].
    rewrite effect_messages. exact Hsame.
  - destruct (isOpen s); [| exact Hsame].
    rewrite effect_messages. exact Hsame.
  - destruct (isOpen s); exact Hsame.
  - destruct (isOpen s && String.eqb key "Enter"); [exact Hsend | exact Hsame].
  - destruct (isOpen s && negb (isTyping s)); [exact Hsend | exact Hsame].
  - destruct (inFlight s); [exact Hsame |].
    unfold settle. rewrite effect_messages. cbn [messages]. now eexists.
Qed.

Lemma run_extends (es : list Event) : forall st,
  exists later,
    messages (fst (run trim es st)) = (messages (fst st) ++ later)%list.
Proof.
  induction es as [| e es IH]; intros [s fx]; cbn [run fst snd].
  - exists []. now rewrite app_nil_r.
  - destruct (dispatch_extends e s) as [l1 H1].
    destruct (dispatch trim e s) as [s' fx']. cbn [fst] in H1.
    destruct (IH (s', (fx ++ fx')%list)) as [l2 H2]. cbn [fst] in H2.
    exists (l1 ++ l2)%list. now rewrite H2, H1, app_assoc.
Qed.

Lemma run_app (es1 es2 : list Event) : forall st,
  run trim (es1 ++ es2) st = run trim es2 (run trim es1 st).
Proof.
  induction es1 as [| e es1 IH]; intros st; [reflexivity |].
  cbn [app run]. destruct (dispatch trim e (fst st)). apply IH.
Qed.

Lemma history_starts_with_greeting (es : list Event) :
  exists rest, messages (fst (history trim es)) = greeting :: rest.
Proof.
  unfold history.
  destruct (run_extends es (effect initialState)) as [later H].
  rewrite H, effect_messages. now eexists.
Qed.

(** The conversation only grows: whatever happens next, the messages shown
    so far stay where they are, the greeting first, and new ones are added
    at the end. *)
Theorem chat_history_append_only (es1 es2 : list Event) :
  exists rest later,
    messages (fst (history trim es1)) = greeting :: rest
    /\ messages (fst (history trim (es1 ++ es2)))
       = (greeting :: rest ++ later)%list.
Proof.
  destruct (history_starts_with_greeting es1) as [rest Hrest].
  unfold history in *. rewrite run_app.
  destruct (run_extends es2 (run trim es1 (effect initialState)))
    as [later Hlater].
  exists rest, later. split; [exact Hrest |].
  now rewrite Hlater, Hrest.
Qed.

(** Every message sent is answered by exactly one model message once its
    promise settles, whether it resolves or rejects: the model messages
    are the greeting and one per settled send. *)
Theorem chat_replies_match_sends (es : list Event) :
  let (s, fx) := history trim es in
  (List.length (filter isModel (messages s)) + inFlight s
   = 1 + List.length (filter isUser (messages s)))%nat
  /\ (inFlight s <= List.length (sentTexts fx))%nat
  /\ (List.length (messages s) + inFlight s
      = 1 + 2 * List.length (sentTexts fx))%nat.
Proof.
  pose proof (history_consistent es) as H.
  destruct (history_starts_with_greeting es) as [rest Hrest].
  destruct (history trim es) as [s fx]. cbn [fst] in Hrest.
  destruct H as [(_ & _ & Hsent & _ & Hcount & _) _].
  assert (Hu : List.length (filter isUser (messages s))
               = List.length (sentTexts fx))
    by now rewrite <- Hsent, length_map.
  assert (Hall : forall ms,
             List.length ms
             = (List.length (filter isUser ms)
                + List.length (filter isModel ms))%nat).
  { induction ms as [| m ms IH]; [reflexivity |].
    cbn [filter List.length]. unfold isUser at 1, isModel at 1.
    destruct (role m); cbn [List.length]; lia. }
  specialize (Hall (messages s)).
  assert (Hm : (1 <= List.length (filter isModel (messages s)))%nat).
  { rewrite Hrest. cbn. lia. }
  lia.
Qed.

(** The typing indicator is shown only while a reply is awaited: once
    every promise has settled it is off. *)
Theorem chat_typing_needs_pending_reply (es : list Event) :
  let (s, fx) := history trim es in
  (isTyping s = true -> (0 < inFlight s)%nat)
  /\ (inFlight s = 0%nat -> isTyping s = false).
Proof.
  pose proof (history_consistent es) as H.
  destruct (history trim es) as [s fx].
  destruct H as [(_ & _ & _ & _ & _ & Htyping) _].
  split; [exact Htyping |].
  intros Hn. destruct (isTyping s); [| reflexivity].
  specialize (Htyping eq_refl). lia.
Qed.

End ChatProperties.

(* ================================================================= *)
(** * Plain text: properties *)

Section TextProperties.

Import JSNumber JSString JSText.
Open Scope nat_scope.
Open Scope string_scope.

Local Arguments isDigit : simpl never.
Local Arguments isWhiteSpace : simpl never.

Lemma append_nil (s : string) : s ++ "" = s.
Proof. induction s as [| c s IH]; simpl; [reflexivity | now rewrite IH]. Qed.

Lemma append_assoc (a b c : string) : (a ++ b) ++ c = a ++ b ++ c.
Proof. induction a as [| x a IH]; simpl; [reflexivity | now rewrite IH]. Qed.

Lemma noChar_app (c : ascii) (a b : string) :
  noChar c (a ++ b) = noChar c a && noChar c b.
Proof.
  induction a as [| x a IH]; simpl; [reflexivity |].
  now rewrite IH, andb_assoc.
Qed.

Lemma split_noChar (c : ascii) (s : string) :
  noChar c s = true -> split c s = [s].
Proof.
  induction s as [| x s IH]; simpl; [reflexivity |].
  intros H. apply andb_true_iff in H as [Hx Hs].
  apply negb_true_iff in Hx. now rewrite Hx, (IH Hs).
Qed.

Lemma split_app (c : ascii) (a b : string) :
  noChar c a = true -> split c (a ++ String c b) = a :: split c b.
Proof.
  induction a as [| x a IH]; simpl.
  - intros _. now rewrite Ascii.eqb_refl.
  - intros H. apply andb_true_iff in H as [Hx Ha].
    apply negb_true_iff in Hx. now rewrite Hx, (IH Ha).
Qed.

(** Splitting what [join] has put together gives the parts back, when
    the separator occurs in none of them. *)
Lemma split_join (c : ascii) (p : string) (parts : list string) :
  forallb (noChar c) (p :: parts) = true ->
  split c (join (String c "") (p :: parts)) = p :: parts.
Proof.
  revert p. induction parts as [| q parts IH]; intros p H.
  - simpl in *. apply split_noChar. now rewrite andb_true_r in H.
  - cbn [forallb] in H. apply andb_true_iff in H as [Hp Hrest].
    change (join (String c "") (p :: q :: parts))
      with (p ++ String c (join (String c "") (q :: parts))).
    rewrite (split_app c p _ Hp). f_equal. now apply IH.
Qed.

Lemma fixedChars_app (a b : string) :
  fixedChars (a ++ b) = fixedChars a && fixedChars b.
Proof.
  induction a as [| x a IH]; simpl; [reflexivity |].
  now rewrite IH, andb_assoc.
Qed.

Lemma allDigits_fixedChars (s : string) :
  allDigits s = true -> fixedChars s = true.
Proof.
  induction s as [| x s IH]; simpl; [reflexivity |].
  intros H. apply andb_true_iff in H as [Hx Hs].
  now rewrite Hx, (IH Hs).
Qed.

Lemma fixedChars_noChar (c : ascii) (s : string) :
  isDigit c = false -> Ascii.eqb c "-" = false -> Ascii.eqb c "." = false ->
  fixedChars s = true -> noChar c s = true.
Proof.
  intros Hd Hm Hp. induction s as [| x s IH]; simpl; [reflexivity |].
  intros H. apply andb_true_iff in H as [Hx Hs].
  rewrite (IH Hs), andb_true_r. apply negb_true_iff.
  destruct (Ascii.eqb_spec x c) as [-> |]; [| reflexivity].
  rewrite Hd, Hm, Hp in Hx. discriminate Hx.
Qed.

Lemma allWhiteSpace_noChar (c : ascii) (s : string) :
  isWhiteSpace c = false -> allWhiteSpace s = true -> noChar c s = true.
Proof.
  intros Hc. induction s as [| x s IH]; simpl; [reflexivity |].
  intros H. apply andb_true_iff in H as [Hx Hs].
  rewrite (IH Hs), andb_true_r. apply negb_true_iff.
  destruct (Ascii.eqb_spec x c) as [-> |]; [| reflexivity].
  rewrite Hc in Hx. discriminate Hx.
Qed.

Lemma spanDigits_allDigits (s : string) :
  allDigits s = true -> spanDigits s = (s, "").
Proof.
  induction s as [| x s IH]; simpl; [reflexivity |].
  intros H. apply andb_true_iff in H as [Hx Hs].
  now rewrite Hx, (IH Hs).
Qed.

Lemma spanDigits_spec (s : string) :
  s = fst (spanDigits s) ++ snd (spanDigits s)
  /\ allDigits (fst (spanDigits s)) = true.
Proof.
  induction s as [| x s [IH1 IH2]]; simpl; [now split |].
  destruct (isDigit x) eqn:Hx; [| now split].
  destruct (spanDigits s) as [d r]. simpl in *.
  split; [now f_equal | now rewrite Hx].
Qed.

(** The shape behind [plainDecimal]. *)
Lemma plainDecimal_shape (s : string) :
  plainDecimal s = true ->
  exists (neg : bool) (d0 : ascii) (int tail : string),
    s = (if neg then "-" else "") ++ String d0 int ++ tail
    /\ isDigit d0 = true /\ allDigits int = true
    /\ (tail = "" \/ exists frac, tail = String "." frac
                                  /\ allDigits frac = true).
Proof.
  unfold plainDecimal. intros H.
  assert (Hbody : forall body,
             (let (int, r) := spanDigits body in
              match int, r with
              | "", _ => false
              | _, "" => true
              | _, String c frac => Ascii.eqb c "." && allDigits frac
              end) = true ->
             exists d0 int tail,
               body = String d0 int ++ tail
               /\ isDigit d0 = true /\ allDigits int = true
               /\ (tail = "" \/ exists frac, tail = String "." frac
                                             /\ allDigits frac = true)).
  { intros body Hb. destruct (spanDigits_spec body) as [Heq Hall].
    destruct (spanDigits body) as [int r]. cbn [fst snd] in *.
    destruct int as [| d0 int]; [discriminate |].
    cbn [allDigits] in Hall. apply andb_true_iff in Hall as [Hd0 Hint].
    exists d0, int, r. repeat split; try assumption.
    destruct r as [| c frac]; [now left | right].
    apply andb_true_iff in Hb as [Hc Hfrac].
    apply Ascii.eqb_eq in Hc. subst c. now exists frac. }
  destruct s as [| c r]; [discriminate |].
  destruct (Ascii.eqb c "-") eqn:Hc.
  - apply Ascii.eqb_eq in Hc. subst c.
    destruct (Hbody r H) as (d0 & int & tail & -> & Hrest).
    now exists true, d0, int, tail.
  - destruct (Hbody (String c r) H) as (d0 & int & tail & Heq & Hrest).
    now exists false, d0, int, tail.
Qed.

Lemma isDigit_facts (d : ascii) :
  isDigit d = true ->
  Ascii.eqb d "+" = false /\ Ascii.eqb d "-" = false
  /\ isWhiteSpace d = false /\ Ascii.eqb d "," = false
  /\ (if ascii_dec "I" d then true else false) = false.
Proof.
  intros H. repeat split.
  - destruct (Ascii.eqb_spec d "+") as [-> |]; [discriminate H | reflexivity].
  - destruct (Ascii.eqb_spec d "-") as [-> |]; [discriminate H | reflexivity].
  - unfold isDigit, isWhiteSpace in *.
    destruct (nat_of_ascii d) as [| n]; [discriminate H |].
    apply andb_true_iff in H as [H1 H2].
    apply Nat.leb_le in H1. apply Nat.leb_le in H2.
    repeat (apply orb_false_iff; split); apply Nat.eqb_neq; lia.
  - destruct (Ascii.eqb_spec d ",") as [-> |]; [discriminate H | reflexivity].
  - destruct (ascii_dec "I" d) as [<- |]; [discriminate H | reflexivity].
Qed.

Lemma isDigit_low (d : ascii) : isDigit d = true -> nat_of_ascii d < 128.
Proof.
  unfold isDigit. intros H. apply andb_true_iff in H as [_ H].
  apply Nat.leb_le in H. lia.
Qed.

(** A string that starts below 128 and not with white space is left as it
    is. *)
Lemma trimStart_low (c : ascii) (r : string) :
  isWhiteSpace c = false -> nat_of_ascii c < 128 ->
  trimStart (String c r) = String c r.
Proof.
  intros Hc Hlow. cbn [trimStart]. rewrite Hc.
  assert (H2 : forall b2, isWideSpace2 c b2 = false).
  { intros b2. unfold isWideSpace2.
    replace (nat_of_ascii c =? 194)%nat with false
      by (symmetry; apply Nat.eqb_neq; lia).
    reflexivity. }
  assert (H3 : forall b2 b3, isWideSpace3 c b2 b3 = false).
  { intros b2 b3. unfold isWideSpace3. cbv zeta.
    replace (nat_of_ascii c =? 225)%nat with false
      by (symmetry; apply Nat.eqb_neq; lia).
    replace (nat_of_ascii c =? 226)%nat with false
      by (symmetry; apply Nat.eqb_neq; lia).
    replace (nat_of_ascii c =? 227)%nat with false
      by (symmetry; apply Nat.eqb_neq; lia).
    replace (nat_of_ascii c =? 239)%nat with false
      by (symmetry; apply Nat.eqb_neq; lia).
    reflexivity. }
  destruct r as [| b2 [| b3 r3]]; try reflexivity.
  - now rewrite H2.
  - now rewrite H2, H3.
Qed.

Lemma unsignedPrefix_digits (d0 : ascii) (int tail : string) :
  isDigit d0 = true -> allDigits int = true ->
  (tail = "" \/ exists frac, tail = String "." frac /\ allDigits frac = true) ->
  unsignedPrefix (String d0 int ++ tail) = Some (String d0 int ++ tail).
Proof.
  intros Hd Hint Htail. unfold unsignedPrefix.
  assert (Hall : allDigits (String d0 int) = true)
    by (cbn [allDigits]; now rewrite Hd, Hint).
  assert (Hinf : String.prefix "Infinity" (String d0 int ++ tail) = false).
  { cbn [append String.prefix].
    destruct (ascii_dec "I" d0) as [<- |]; [discriminate Hd | reflexivity]. }
  rewrite Hinf.
  destruct Htail as [-> | (frac & -> & Hfrac)].
  - rewrite append_nil, (spanDigits_allDigits _ Hall).
    cbn [exponentPart]. now rewrite append_nil.
  - rewrite (spanDigits_point _ frac Hall).
    cbv beta iota. rewrite (spanDigits_allDigits _ Hfrac).
    cbn [exponentPart]. now rewrite append_nil.
Qed.

(** [parseFloat] reads a plain decimal in full, also after white space. *)
Lemma parseFloat_plainDecimal (literalValue : string -> float)
    (ws s : string) :
  allWhiteSpace ws = true -> plainDecimal s = true ->
  parseFloat literalValue (ws ++ s) = literalValue s.
Proof.
  intros Hws Hs.
  destruct (plainDecimal_shape s Hs)
    as (neg & d0 & int & tail & -> & Hd & Hint & Htail).
  destruct (isDigit_facts d0 Hd) as (Hplus & Hminus & Hspace & _ & _).
  pose proof (unsignedPrefix_digits d0 int tail Hd Hint Htail) as Hu.
  unfold parseFloat.
  assert (Htrim : forall c r,
             isWhiteSpace c = false -> (nat_of_ascii c < 128)%nat ->
             trimStart (ws ++ String c r) = String c r).
  { intros c r Hc Hlow. clear Hs.
    induction ws as [| x ws IH]; cbn [append].
    - now apply trimStart_low.
    - cbn [allWhiteSpace] in Hws. apply andb_true_iff in Hws as [Hx Hrest].
      cbn [trimStart]. rewrite Hx. now apply IH. }
  destruct neg.
  - change ("-" ++ String d0 int ++ tail)
      with (String "-" (String d0 int ++ tail)).
    rewrite Htrim by (try reflexivity; cbn; lia).
    cbn [decimalPrefix]. change (Ascii.eqb "-" "+" || Ascii.eqb "-" "-")%bool with true.
    cbv iota. now rewrite Hu.
  - change ("" ++ String d0 int ++ tail) with (String d0 (int ++ tail)).
    rewrite Htrim by (try exact Hspace; exact (isDigit_low d0 Hd)).
    cbn [decimalPrefix]. rewrite Hplus, Hminus. cbn [orb].
    change (String d0 (int ++ tail)) with (String d0 int ++ tail).
    now rewrite Hu.
Qed.

Lemma plainDecimal_noComma (s : string) :
  plainDecimal s = true -> noChar "," s = true.
Proof.
  intros Hs.
  destruct (plainDecimal_shape s Hs)
    as (neg & d0 & int & tail & -> & Hd & Hint & Htail).
  assert (Hdigits : forall t, allDigits t = true -> noChar "," t = true).
  { intros t Ht. apply fixedChars_noChar; try reflexivity.
    now apply allDigits_fixedChars. }
  rewrite !noChar_app. cbn [noChar].
  destruct (isDigit_facts d0 Hd) as (_ & _ & _ & Hcomma & _).
  rewrite Hcomma, (Hdigits int Hint).
  destruct Htail as [-> | (frac & -> & Hfrac)]; cbn [noChar].
  - now destruct neg.
  - rewrite (Hdigits frac Hfrac). now destruct neg.
Qed.

(** [parseFloat] skips a no-break space, a line separator or a byte order
    mark as it skips a blank. *)
Lemma parseFloat_after_wide_space (literalValue : string -> float) :
  parseFloat literalValue (String (ascii_of_nat 194)
                             (String (ascii_of_nat 160) "20.5"))
  = literalValue "20.5"
  /\ parseFloat literalValue
       (String (ascii_of_nat 226)
          (String (ascii_of_nat 128) (String (ascii_of_nat 168) " 20.5")))
     = literalValue "20.5"
  /\ parseFloat literalValue
       (String (ascii_of_nat 239)
          (String (ascii_of_nat 187) (String (ascii_of_nat 191) "-7")))
     = literalValue "-7".
Proof. repeat split. Qed.

(** [toFixed] in the fixed range writes digits, a minus sign and a point
    only. *)
Lemma toFixed_fixedChars (nts : float -> string) (f : nat) (x : float) :
  f <> 0 -> fixedRange x = true -> fixedChars (toFixed nts f x) = true.
Proof.
  intros Hf H. unfold fixedRange in H.
  apply andb_true_iff in H as [Hfin Hsmall].
  apply negb_true_iff in Hsmall.
  destruct (is_finite_SF x Hfin) as [Hnan Hinf].
  assert (Hplace : forall n, fixedChars (placePoint f n) = true).
  { intros n.
    destruct (placePoint_shape f n Hf) as (a & b & -> & Ha & _ & Hb & _).
    rewrite fixedChars_app. cbn [fixedChars].
    rewrite (allDigits_fixedChars a Ha), (allDigits_fixedChars b Hb).
    reflexivity. }
  unfold toFixed.
  destruct (Prim2SF x) as [sg | sg | | sg m e].
  - apply Hplace.
  - now destruct (Hinf sg).
  - now destruct Hnan.
  - rewrite Hsmall, fixedChars_app, Hplace. now destruct sg.
Qed.

End TextProperties.

(* ================================================================= *)
(** * Histories of the view container: properties *)

Section DashboardHistoryProperties.

Import JSNumber JSString JSText GeminiService Dashboard DashboardHistory.
Open Scope nat_scope.
Open Scope string_scope.

Variable host : Host.

(** Enter on two plain decimals separated by a comma, each possibly after
    white space (as in [20.59, -78.96]), stores the two numbers as the
    point, changes nothing else and starts no request. *)
Theorem search_reads_plain_decimals (s : State host)
    (ws1 a ws2 b : string) :
  allWhiteSpace ws1 = true -> plainDecimal a = true ->
  allWhiteSpace ws2 = true -> plainDecimal b = true ->
  dispatch host (SearchKeyDown "Enter" (ws1 ++ a ++ "," ++ ws2 ++ b)) s
  = (setLon host (literalValue host b) (setLat host (literalValue host a) s),
     []).
Proof.
  intros Hws1 Ha Hws2 Hb. cbn [dispatch]. unfold onSearchKeyDown.
  change (String.eqb "Enter" "Enter") with true. cbv iota.
  assert (Hcomma : forall ws t,
             allWhiteSpace ws = true -> plainDecimal t = true ->
             noChar "," (ws ++ t) = true).
  { intros ws t Hws Ht. rewrite noChar_app, (plainDecimal_noComma t Ht).
    now rewrite (allWhiteSpace_noChar "," ws eq_refl Hws). }
  replace (ws1 ++ a ++ "," ++ ws2 ++ b)
    with ((ws1 ++ a) ++ String "," (ws2 ++ b))
    by (now rewrite append_assoc).
  rewrite (split_app "," _ _ (Hcomma ws1 a Hws1 Ha)).
  rewrite (split_noChar "," _ (Hcomma ws2 b Hws2 Hb)).
  now rewrite !parseFloat_plainDecimal.
Qed.

Lemma csvRow_cells (row : ClimateStats) :
  cleanRow row = true ->
  split "," (csvRow host row) = rowCells host row
  /\ noChar (ascii_of_nat 10) (csvRow host row) = true.
Proof.
  unfold cleanRow, numericFields, rowCells. cbn [forallb map].
  intros H.
  apply andb_true_iff in H as [H H4].
  apply andb_true_iff in H as [Hd1 Hd2].
  apply andb_true_iff in H4 as [Ht H4].
  apply andb_true_iff in H4 as [Hr H4].
  apply andb_true_iff in H4 as [Hn H4].
  apply andb_true_iff in H4 as [Ha _].
  assert (Hfixed : forall v, fixedRange v = true ->
                     noChar "," (fixed host 2 v) = true
                     /\ noChar (ascii_of_nat 10) (fixed host 2 v) = true).
  { intros v Hv.
    pose proof (toFixed_fixedChars (numberToString (env host)) 2 v
                  (Nat.neq_succ_0 1) Hv) as Hf.
    split; now apply fixedChars_noChar. }
  destruct (Hfixed _ Ht) as [Ht1 Ht2]. destruct (Hfixed _ Hr) as [Hr1 Hr2].
  destruct (Hfixed _ Hn) as [Hn1 Hn2]. destruct (Hfixed _ Ha) as [Ha1 Ha2].
  unfold csvRow. split.
  - cbn [append].
    rewrite (split_app "," _ _ Hd1), (split_app "," _ _ Ht1),
      (split_app "," _ _ Hr1), (split_app "," _ _ Hn1),
      (split_noChar "," _ Ha1).
    reflexivity.
  - rewrite !noChar_app. cbn [noChar].
    now rewrite Hd2, Ht2, Hr2, Hn2, Ha2.
Qed.

(** The CSV text of clean rows reads back: split at the line feeds and
    then at the commas it gives the five headers and, for every sample in
    order, its date and its four numbers in fixed notation. *)
Theorem csv_reads_back (rows : list ClimateStats) :
  forallb cleanRow rows = true ->
  csvCells (csvContent host rows) = headers :: map (rowCells host) rows.
Proof.
  intros Hrows. unfold csvCells, csvContent, csvLines.
  assert (Hlines : forallb (noChar (ascii_of_nat 10)) (map (csvRow host) rows)
                   = true
                   /\ map (split ",") (map (csvRow host) rows)
                      = map (rowCells host) rows).
  { induction rows as [| row rows IH]; [now split |].
    cbn [forallb] in Hrows. apply andb_true_iff in Hrows as [Hrow Hrest].
    destruct (csvRow_cells row Hrow) as [Hcells Hlf].
    destruct (IH Hrest) as [IH1 IH2].
    cbn [map forallb]. now rewrite Hlf, IH1, Hcells, IH2. }
  destruct Hlines as [Hlf Hcells].
  change LF with (String (ascii_of_nat 10) "").
  rewrite split_join.
  - cbn [map]. now rewrite Hcells.
  - cbn [forallb]. now rewrite Hlf.
Qed.

(** A report exported after a selection on the map carries the new point
    in its file name and in its [Location] line, while everything after
    that line is the analysis held for the previous point. *)
Theorem report_relabelled_after_selection (s : State host)
    (p : Insights) (now : string) (newLat newLon : float) :
  prediction s = Some p ->
  exists rest,
    reportContent host now p s
    = reportHead host now (lat s) (lon s) ++ rest
    /\ snd (dispatch host (ExportReportClick now)
              (fst (dispatch host (MapSelect newLat newLon) s)))
       = [Download
            ("climate_report_" ++ fixed host 2 newLat ++ "_"
             ++ fixed host 2 newLon ++ ".txt")
            "text/plain;charset=utf-8;"
            (reportHead host now newLat newLon ++ rest)].
Proof.
  intros Hp. eexists. split.
  - unfold reportContent, reportHead.
    rewrite ?append_assoc. cbn [append]. rewrite ?append_assoc.
    reflexivity.
  - cbn [dispatch handleLocationSelect fst snd]. unfold handleExportReport.
    cbn [prediction setLon setLat]. rewrite Hp.
    cbn [snd lat lon]. unfold reportContent, reportHead.
    cbn [lat lon startYear endYear calamities news].
    rewrite ?append_assoc. cbn [append]. rewrite ?append_assoc.
    reflexivity.
Qed.

End DashboardHistoryProperties.

(* ================================================================= *)
(** * Histories of the view container on the concrete instances *)

Section DashboardHistoryExamples.

Import JSNumber JSString JSText GeminiService Dashboard DashboardHistory.
Import Examples.
Open Scope string_scope.

(** The text [20.59, -78.96] typed into the search box. *)
Lemma search_reads_plain_decimals_witness :
  dispatch offlineHost (SearchKeyDown "Enter" "20.59, -78.96")
    (initialState offlineHost)
  = (setLon offlineHost (literalValue offlineHost "-78.96")
       (setLat offlineHost (literalValue offlineHost "20.59")
          (initialState offlineHost)),
     []).
Proof.
  exact (search_reads_plain_decimals offlineHost (initialState offlineHost)
           "" "20.59" " " "-78.96" eq_refl eq_refl eq_refl eq_refl).
Defined.

(** The CSV text of the sample of the export scenario. *)
Lemma csv_reads_back_witness :
  csvCells (csvContent offlineHost [sample])
  = [ ["Date"; "Temperature (C)"; "Rainfall (mm)"; "NDVI"; "Anomaly"];
      ["2023-01"; "21.50"; "3.20"; "0.41"; "-0.30"] ].
Proof.
  exact (csv_reads_back offlineHost [sample] eq_refl).
Defined.

(** A selection after the first refresh, then the export. *)
Lemma report_relabelled_after_selection_witness :
  exists rest,
    reportContent offlineHost "now" fallbackInsights loadedState
    = reportHead offlineHost "now" 20.5937 78.9629 ++ rest
    /\ snd (dispatch offlineHost (ExportReportClick "now")
              (fst (dispatch offlineHost (MapSelect 10 20) loadedState)))
       = [Download "climate_report_10.00_20.00.txt"
            "text/plain;charset=utf-8;"
            (reportHead offlineHost "now" 10 20 ++ rest)].
Proof.
  exact (report_relabelled_after_selection offlineHost loadedState
           fallbackInsights "now" 10 20 eq_refl).
Defined.

End DashboardHistoryExamples.

(* ================================================================= *)
(** * Further properties of the panel, the search box and the chat *)

Section PanelProperties.

Import InsightsPanel.
Open Scope string_scope.

(** The badge has three colours for the four levels of the schema: red
    for High and yellow for Medium only, and green for every other level,
    so that Critical is shown in the colours of Low. *)
Theorem critical_risk_is_shown_green (level : string) :
  (riskBadgeClass level = "bg-red-500/20 text-red-400" <-> level = "High")
  /\ (riskBadgeClass level = "bg-yellow-500/20 text-yellow-400"
      <-> level = "Medium")
  /\ (riskBadgeClass level = "bg-green-500/20 text-green-400"
      <-> level <> "High" /\ level <> "Medium")
  /\ map riskBadgeClass schemaLevels
     = ["bg-green-500/20 text-green-400"; "bg-yellow-500/20 text-yellow-400";
        "bg-red-500/20 text-red-400"; "bg-green-500/20 text-green-400"].
Proof.
  unfold riskBadgeClass.
  destruct (String.eqb_spec level "High") as [-> | Hh].
  - repeat split; try discriminate; try reflexivity.
    intros [H _]. exfalso. now apply H.
  - destruct (String.eqb_spec level "Medium") as [-> | Hm].
    + repeat split; try discriminate; try reflexivity.
      intros [_ H]. exfalso. now apply H.
    + repeat split; try discriminate; try reflexivity; try assumption;
        intros H; exfalso; auto.
Qed.

End PanelProperties.

Section SearchNaNProperties.

Import JSNumber JSString JSText GeminiService Dashboard MapDrawing.
Open Scope string_scope.

Variable host : Host.

(** Enter on a text with exactly one comma whose first part does not
    begin with a number stores NaN as the latitude, whatever the second
    part is; the map then draws no marker and the exports are named
    after [NaN]. *)
Theorem search_without_number_stores_NaN (s : State host)
    (p0 p1 : string)
    (project : float * float -> option (float * float)) :
  noChar "," p0 = true -> noChar "," p1 = true ->
  decimalPrefix (trimStart p0) = None ->
  let s' := fst (dispatch host (SearchKeyDown "Enter" (p0 ++ "," ++ p1)) s) in
  isNaN (lat s') = true
  /\ drawMarker project (lat s') (lon s') = []
  /\ fixed host 2 (lat s') = "NaN"
  /\ (data s <> [] ->
      snd (dispatch host DownloadCSVClick s')
      = [Download ("climate_data_NaN_" ++ fixed host 2 (lon s') ++ ".csv")
           "text/csv;charset=utf-8;" (csvContent host (data s))]).
Proof.
  intros H0 H1 Hprefix. cbv zeta. cbn [dispatch]. unfold onSearchKeyDown.
  change (String.eqb "Enter" "Enter") with true. cbv iota.
  change (p0 ++ "," ++ p1) with (p0 ++ String "," p1).
  rewrite (split_app "," _ _ H0), (split_noChar "," _ H1).
  cbn [fst lat lon setLon setLat].
  assert (Hnan : parseFloat (literalValue host) p0 = nan)
    by (unfold parseFloat; now rewrite Hprefix).
  rewrite Hnan. repeat split.
  intros Hdata. unfold handleDownloadCSV. cbn [data setLon setLat lat lon].
  destruct (data s); [contradiction | reflexivity].
Qed.

End SearchNaNProperties.

Section SearchNaNExamples.

Import JSNumber JSString JSText GeminiService Dashboard Examples.
Open Scope string_scope.

(** The text [north, 78.9]. *)
Lemma search_without_number_stores_NaN_witness :
  isNaN
    (lat (fst (dispatch offlineHost (SearchKeyDown "Enter" "north, 78.9")
                 loadedState)))
  = true.
Proof.
  exact (proj1 (search_without_number_stores_NaN offlineHost loadedState
                  "north" " 78.9" (fun _ => None) eq_refl eq_refl eq_refl)).
Defined.

End SearchNaNExamples.

Section ChatReplyProperties.

Import GeminiService ChatAssistant.
Open Scope string_scope.

Variable trim : string -> string.




End ChatReplyProperties.

(* ================================================================= *)
(** * The flows of the view container: properties *)

Section FlowsProperties.

Import JSNumber JSString GeminiService Dashboard DashboardHistory.
Import DashboardFlows.
Open Scope nat_scope.
Open Scope string_scope.

Variable host : Host.

(** The handlers that run at once leave the three flags, the data and the
    calamities as they are, and start no refresh. *)
Lemma atOnce_keeps (e : Event) (a : Flows host) :
  match e with
  | PointSelected _ _ | SearchKey _ _ | CsvPressed | ReportPressed _
  | StartYearInput _ | EndYearInput _ =>
      crashed a = false ->
      let a' := fst (dispatch host e a) in
      loading (view a') = loading (view a)
      /\ newsLoading (view a') = newsLoading (view a)
      /\ resourcesLoading (view a') = resourcesLoading (view a)
      /\ data (view a') = data (view a)
      /\ calamities (view a') = calamities (view a)
      /\ pendingFetch a' = pendingFetch a
      /\ pendingNews a' = pendingNews a
      /\ pendingResources a' = pendingResources a
      /\ crashed a' = false
      /\ filter isRefreshRequest (snd (dispatch host e a)) = []
  | _ => True
  end.
Proof.
  destruct e; try exact I; intros Hc; unfold dispatch; rewrite Hc;
    cbv zeta; unfold atOnce; cbn [fst snd withView view pendingFetch
                                   pendingNews pendingResources crashed].
  - now repeat split.
  - unfold onSearchKeyDown.
    destruct (String.eqb key "Enter"); [| now repeat split].
    destruct (split "," value) as [| p0 [| p1 [| p2 r]]]; now repeat split.
  - unfold handleDownloadCSV.
    destruct (data (view a)) eqn:E; cbn [fst snd]; rewrite ?E;
      now repeat split.
  - unfold handleExportReport.
    destruct (prediction (view a)) eqn:E; cbn [fst snd]; now repeat split.
  - now repeat split.
  - now repeat split.
Qed.

Lemma dispatch_orderly (e : Event) (a : Flows host) :
  orderly host a -> orderly host (fst (dispatch host e a)).
Proof.
  intros H. pose proof (atOnce_keeps e a) as Hkeep.
  destruct (crashed a) eqn:Hc;
    [unfold dispatch; rewrite Hc; exact H |].
  destruct H as (Hlen & Hload & Hnews & Hres).
  destruct e;
    try (destruct (Hkeep eq_refl)
           as (H1 & H2 & H3 & _ & _ & H6 & H7 & H8 & _);
         unfold orderly; rewrite H1, H2, H3, H6, H7, H8; now repeat split);
    unfold dispatch; rewrite Hc; cbv zeta.
  - destruct (loading (view a)) eqn:Hl;
      [cbn [fst]; now repeat split |].
    assert (Hnone : pendingFetch a = []).
    { destruct (pendingFetch a) as [| c rest] eqn:E; [reflexivity |].
      assert (Hne : c :: rest <> []) by discriminate.
      specialize (Hload Hne). congruence. }
    unfold startLoad, orderly. simpl. rewrite Hnone. simpl.
    repeat split; auto.
  - destruct (newsLoading (view a)) eqn:Hl;
      [cbn [fst]; unfold orderly; rewrite Hl; now repeat split |].
    unfold startNews, orderly. simpl. rewrite Hnews. now repeat split.
  - destruct (resourcesLoading (view a)) eqn:Hl;
      [cbn [fst]; unfold orderly; rewrite Hl; now repeat split |].
    unfold startResources, orderly. simpl. rewrite Hres. now repeat split.
  - unfold resumeLoad.
    destruct (pendingFetch a) as [| [pointLat pointLon] rest] eqn:E;
      [cbn [fst]; unfold orderly; rewrite E; now repeat split |].
    assert (Hrest : rest = []) by (destruct rest; [reflexivity | simpl in Hlen; lia]).
    subst rest.
    destruct outcome as [stats | reason]; unfold orderly; simpl;
      repeat split; auto; try lia; intros Hne; now contradiction Hne.
  - unfold finishLoad.
    destruct (pendingInsights a) as [| n];
      [cbn [fst]; now repeat split |].
    destruct value; unfold orderly; simpl; now repeat split.
  - unfold finishNews.
    destruct (pendingNews a) as [| n] eqn:E;
      [cbn [fst]; unfold orderly; rewrite E; now repeat split |].
    unfold orderly. simpl.
    destruct (newsLoading (view a)); [| discriminate Hnews].
    injection Hnews as ->. now repeat split.
  - unfold finishResources.
    destruct (pendingResources a) as [| n] eqn:E;
      [cbn [fst]; unfold orderly; rewrite E; now repeat split |].
    unfold orderly. simpl.
    destruct (resourcesLoading (view a)); [| discriminate Hres].
    injection Hres as ->. now repeat split.
Qed.

Lemma run_orderly (es : list Event) : forall st,
  orderly host (fst st) -> orderly host (fst (run host es st)).
Proof.
  induction es as [| e es IH]; intros [a fx] H; cbn [run fst snd] in *;
    [exact H |].
  pose proof (dispatch_orderly e a H) as H'.
  destruct (dispatch host e a) as [a' fx']. now apply IH.
Qed.

Lemma history_orderly (es : list Event) :
  orderly host (fst (history host es)).
Proof.
  apply run_orderly. unfold mounted, startLoad, orderly. simpl.
  now repeat split.
Qed.

(** [loadData] of the container is the flow in which the two replies
    arrive with nothing in between. *)
Lemma loadData_uninterrupted (s : State host) :
  let waiting :=
    startLoad host
      {| view := s; pendingFetch := []; pendingInsights := 0;
         pendingNews := 0; pendingResources := 0; crashed := false |} in
  match fetchClimateData host (lat s) (lon s) (startYear s) (endYear s) with
  | Resolved stats =>
      run host
        [ClimateDataReply (Resolved stats);
         InsightsReply
           (Shaped (getClimateInsights (env host) stats (lat s) (lon s)))]
        waiting
  | Rejected reason => run host [ClimateDataReply (Rejected reason)] waiting
  end
  = ({| view := fst (loadData host s); pendingFetch := [];
        pendingInsights := 0; pendingNews := 0; pendingResources := 0;
        crashed := false |},
     snd (loadData host s)).
Proof.
  cbv zeta. unfold loadData.
  now destruct (fetchClimateData host (lat s) (lon s) (startYear s)
                  (endYear s)).
Qed.

Lemma dispatch_stuck (e : Event) (a : Flows host) :
  stuck host a ->
  stuck host (fst (dispatch host e a))
  /\ data (view (fst (dispatch host e a))) = data (view a)
  /\ calamities (view (fst (dispatch host e a))) = calamities (view a)
  /\ filter isRefreshRequest (snd (dispatch host e a)) = [].
Proof.
  intros [Hl Hp]. pose proof (atOnce_keeps e a) as Hkeep.
  destruct (crashed a) eqn:Hc.
  { unfold dispatch. rewrite Hc. cbn [fst snd]. unfold stuck.
    rewrite Hc. now repeat split; auto. }
  destruct Hp as [Hp | Hp]; [discriminate Hp |].
  destruct e;
    try (destruct (Hkeep eq_refl)
           as (H1 & _ & _ & H4 & H5 & H6 & _ & _ & H9 & H10);
         unfold stuck; rewrite H1, H4, H5, H6, H10; now repeat split; auto);
    unfold dispatch; rewrite Hc; cbv zeta.
  - rewrite Hl. cbn [fst snd]. unfold stuck. now repeat split; auto.
  - destruct (newsLoading (view a)); unfold stuck; simpl;
      now repeat split; auto.
  - destruct (resourcesLoading (view a)); unfold stuck; simpl;
      now repeat split; auto.
  - unfold resumeLoad. rewrite Hp. cbn [fst snd]. unfold stuck.
    now repeat split; auto.
  - unfold finishLoad.
    destruct (pendingInsights a); [| destruct value]; unfold stuck; simpl;
      now repeat split; auto.
  - unfold finishNews.
    destruct (pendingNews a); unfold stuck; simpl; now repeat split; auto.
  - unfold finishResources.
    destruct (pendingResources a); unfold stuck; simpl;
      now repeat split; auto.
Qed.

Lemma run_stuck (es : list Event) : forall a fx,
  stuck host a -> filter isRefreshRequest fx = [] ->
  let (a', fx') := run host es (a, fx) in
  loading (view a') = true /\ data (view a') = data (view a)
  /\ calamities (view a') = calamities (view a)
  /\ filter isRefreshRequest fx' = [].
Proof.
  induction es as [| e es IH]; intros a fx Ha Hfx; cbn [run fst snd].
  - destruct Ha as [Hl _]. now repeat split.
  - destruct (dispatch_stuck e a Ha) as (Ha' & Hd & Hcal & He).
    destruct (dispatch host e a) as [a1 fx1]. cbn [fst snd] in *.
    assert (Hfx' : filter isRefreshRequest (fx ++ fx1)%list = [])
      by now rewrite filter_app, Hfx, He.
    specialize (IH a1 (fx ++ fx1)%list Ha' Hfx').
    destruct (run host es (a1, (fx ++ fx1)%list)) as [a2 fx2].
    destruct IH as (H1 & H2 & H3 & H4).
    repeat split; congruence.
Qed.

(** When the data request of a refresh is rejected, the refresh ends
    there: [loading] stays set from then on, whatever happens, so the
    Analyze button stays disabled and no further data or insights request
    is made; the data set and the calamities stay those held before.
    (Insights awaited by an earlier refresh may still arrive.) *)
Theorem refresh_stuck_after_rejected_fetch (es1 es2 : list Event)
    (reason : string) :
  pendingFetch (fst (history host es1)) <> [] ->
  let before := fst (history host es1) in
  let (after, fx) :=
    run host (ClimateDataReply (Rejected reason) :: es2) (before, []) in
  loading (view after) = true
  /\ data (view after) = data (view before)
  /\ calamities (view after) = calamities (view before)
  /\ filter isRefreshRequest fx = [].
Proof.
  intros Hpending. cbv zeta.
  destruct (history_orderly es1) as (Hlen & Hload & _ & _).
  set (before := fst (history host es1)) in *.
  cbn [run fst snd app].
  assert (Hfirst : stuck host
                     (fst (dispatch host (ClimateDataReply (Rejected reason))
                             before))
                   /\ view (fst (dispatch host
                                   (ClimateDataReply (Rejected reason))
                                   before)) = view before
                   /\ filter isRefreshRequest
                        (snd (dispatch host
                                (ClimateDataReply (Rejected reason)) before))
                      = []).
  { unfold dispatch. destruct (crashed before) eqn:Hc.
    - cbn [fst snd]. unfold stuck. rewrite Hc. auto.
    - cbv zeta. unfold resumeLoad.
      destruct (pendingFetch before) as [| [pointLat pointLon] rest] eqn:E;
        [now contradiction Hpending |].
      assert (Hrest : rest = [])
        by (destruct rest; [reflexivity | simpl in Hlen; lia]).
      subst rest. cbn [fst snd]. unfold stuck. simpl.
      repeat split; auto. }
  destruct Hfirst as (Hstuck & Hview & Hfx).
  destruct (dispatch host (ClimateDataReply (Rejected reason)) before)
    as [a1 fx1]. cbn [fst snd] in *.
  pose proof (run_stuck es2 a1 fx1 Hstuck Hfx) as H.
  destruct (run host es2 (a1, fx1)) as [a2 fx2].
  now rewrite Hview in H.
Qed.


(** News are requested for the point selected last, while the data set
    and the prediction stay those of the last refresh.  A refresh
    discards the news that have arrived; a reply that arrives after the
    refresh has started is stored all the same. *)
Theorem news_follow_selection (a : Flows host) (newLat newLon : float)
    (result : NewsResult) :
  crashed a = false -> newsLoading (view a) = false ->
  loading (view a) = false ->
  let selected := fst (dispatch host (PointSelected newLat newLon) a) in
  let requested := dispatch host NewsPressed selected in
  snd requested = [NewsRequest newLat newLon]
  /\ data (view (fst requested)) = data (view a)
  /\ prediction (view (fst requested)) = prediction (view a)
  /\ news (view (fst (run host [NewsReply result] (fst requested, []))))
     = Some result
  /\ news (view (fst (run host [NewsReply result; AnalyzePressed]
                        (fst requested, []))))
     = None
  /\ news (view (fst (run host [AnalyzePressed; NewsReply result]
                        (fst requested, []))))
     = Some result.
Proof.
  intros Hc Hn Hl. cbv zeta.
  destruct a as [v pf pi pn pr c]. cbn [view crashed] in *. subst c.
  destruct v as [vlat vlon sy ey d cal ld pr0 an nw nl rs rl].
  cbn [newsLoading loading] in *. subst nl ld.
  repeat split.
Qed.

End FlowsProperties.

Section FlowsExamples.

Import JSNumber JSString GeminiService Dashboard DashboardHistory.
Import DashboardFlows Examples.
Open Scope string_scope.

(** The first data request is rejected; pressing Analyze afterwards does
    nothing. *)
Lemma refresh_stuck_after_rejected_fetch_witness :
  loading
    (view
       (fst (run offlineHost
               [ClimateDataReply (Rejected "request failed");
                AnalyzePressed; PointSelected 10 20; AnalyzePressed]
               (fst (history offlineHost []), []))))
  = true.
Proof.
  assert (Hpending : pendingFetch (fst (history offlineHost [])) <> [])
    by discriminate.
  pose proof (refresh_stuck_after_rejected_fetch offlineHost []
                [AnalyzePressed; PointSelected 10 20; AnalyzePressed]
                "request failed" Hpending) as H.
  cbv zeta in H.
  destruct (run offlineHost _ _) as [after fx].
  exact (proj1 H).
Defined.


(** News fetched after a selection, with the data of the first refresh
    held. *)
Lemma news_follow_selection_witness :
  snd (dispatch offlineHost NewsPressed
         (fst (dispatch offlineHost (PointSelected 10 20) dataArrived)))
  = [NewsRequest 10 20].
Proof.
  exact (proj1 (news_follow_selection offlineHost dataArrived 10 20
                  {| news_summary := "Could not fetch news."; sources := [] |}
                  eq_refl eq_refl eq_refl)).
Defined.

End FlowsExamples.
